(** * Lhyst serverless functions: verification-code issuance and redemption

    A shallow embedding of the Netlify handlers of the repository

    - [netlify/functions/verify-code.js]            (module [VerifyCode])
    - the two revisions of [generate-code.js]        (modules [GenerateCodeResend]
      and [GenerateCodeFallback])
    - [netlify/functions/feedback.js]               (module [Feedback])

    Every handler is an [async] function made of a chain of awaited [fetch]
    calls wrapped in one [try]/[catch].  It is embedded as a function in a
    state-and-exception monad over a [World]: the contents of the remote
    tables the handlers talk to, and the ordered log of the outbound HTTP
    calls they issue.  Whatever is decided outside the handler (environment
    variables, the clock, the random draw, whether a remote call is answered,
    refused or never completes) is read from an [Env]. *)

From Stdlib Require Import String Ascii List ZArith Bool Lia DecimalString.
From Stdlib Require PrimFloat FloatOps SpecFloat.
Import ListNotations.
Local Open Scope string_scope.
Local Open Scope Z_scope.

(** ** JavaScript values and strings *)

(** The JSON values that reach the handlers through [JSON.parse].  A number
    is an integer of size below 1e21, which [toString] prints in full;
    fractions, larger numbers, arrays and nested objects are not
    represented. *)
Inductive JsVal : Type :=
| JUndefined
| JNull
| JBool (b : bool)
| JNum (n : Z)
| JStr (s : string).

(** ToBoolean, as used by [!x], [x || d] and [if (x)]. *)
Definition truthy (v : JsVal) : bool :=
  match v with
  | JUndefined | JNull => false
  | JBool b => b
  | JNum n => negb (n =? 0)
  | JStr s => negb (s =? "")%string
  end.

(** [v || d] *)
Definition js_or (v d : JsVal) : JsVal := if truthy v then v else d.

(** Truthiness of a string-or-undefined value such as [process.env.X]. *)
Definition is_set (o : option string) : bool :=
  match o with
  | Some s => negb (s =? "")%string
  | None => false
  end.

Definition nonempty (s : string) : bool := negb (s =? "")%string.

(** [String.prototype.toLowerCase], on the ASCII letters. *)
Definition lower_char (c : ascii) : ascii :=
  let n := nat_of_ascii c in
  if ((65 <=? n) && (n <=? 90))%nat then ascii_of_nat (n + 32) else c.

Fixpoint toLowerCase (s : string) : string :=
  match s with
  | EmptyString => EmptyString
  | String c r => String (lower_char c) (toLowerCase r)
  end.

(** White space removed by [String.prototype.trim] (TAB, LF, VT, FF, CR, SP). *)
Definition is_space (c : ascii) : bool :=
  let n := nat_of_ascii c in
  ((9 <=? n) && (n <=? 13) || (n =? 32))%nat.

Fixpoint trimStart (s : string) : string :=
  match s with
  | EmptyString => EmptyString
  | String c r => if is_space c then trimStart r else s
  end.

Fixpoint trimEnd (s : string) : string :=
  match s with
  | EmptyString => EmptyString
  | String c r =>
      let r' := trimEnd r in
      if is_space c && (r' =? "")%string then EmptyString else String c r'
  end.

Definition trim (s : string) : string := trimEnd (trimStart s).

(** [String.prototype.slice(0, n)] on a string of ASCII characters, where a
    byte of the model is one UTF-16 unit of the code. *)
Fixpoint slice0 (n : Z) (s : string) : string :=
  match s with
  | EmptyString => EmptyString
  | String c r => if 0 <? n then String c (slice0 (n - 1) r) else EmptyString
  end.

(** [Number.prototype.toString] on an integer. *)
Definition num_toString (n : Z) : string := NilZero.string_of_int (Z.to_int n).

(** [String(v)] on the values above. *)
Definition js_String (v : JsVal) : string :=
  match v with
  | JUndefined => "undefined"
  | JNull => "null"
  | JBool true => "true"
  | JBool false => "false"
  | JNum n => num_toString n
  | JStr s => s
  end.

(** A parsed JSON object: its own properties, in order. *)
Definition JsObject : Type := list (string * JsVal).

Fixpoint prop (o : JsObject) (k : string) : JsVal :=
  match o with
  | [] => JUndefined
  | (k', v) :: r => if (k' =? k)%string then v else prop r k
  end.

(** ** HTTP responses of the handlers *)

(** A handler's [body] is either a plain string or [JSON.stringify] of an
    object literal.  The object is kept structured; [JSON.stringify] leaves
    out the properties whose value is [undefined]. *)
Inductive Body : Type :=
| Text (s : string)
| Json (o : JsObject).

Definition defined (kv : string * JsVal) : bool :=
  match snd kv with JUndefined => false | _ => true end.

Definition JSON_stringify (o : JsObject) : Body := Json (filter defined o).

Record Response : Type := mkResponse { statusCode : Z; body : Body }.

Definition error_body (msg : string) : Body :=
  JSON_stringify [("error", JStr msg)].

(** The request as Netlify hands it over: the method, and the outcome of
    [JSON.parse(event.body || '{}')] ([None] when parsing throws). *)
Record Event : Type := mkEvent {
  httpMethod : string;
  parsed : option JsObject
}.

(** ** The remote tables *)

(** A row of [email_codes].  [expires_at] is stored as an ISO string made by
    [toISOString] and read back with [new Date(..).getTime()]; both are exact
    on integral milliseconds, which is what the model keeps. *)
Record CodeRow : Type := mkCodeRow {
  email : string;
  code : string;
  expires_at : Z;
  used : bool
}.

Record User : Type := mkUser { user_id : nat; user_email : string }.

Record Profile : Type := mkProfile {
  profile_id : nat;
  plan : JsVal;
  trial_end_at : Z
}.

Record Store : Type := mkStore {
  email_codes : list CodeRow;
  users : list User;
  profiles : list Profile
}.

Definition same_pair (e c : string) (r : CodeRow) : bool :=
  (email r =? e)%string && (code r =? c)%string.

(** [GET email_codes?email=eq.E&code=eq.C&used=eq.false]: no [order] is
    requested, the rows come back in table order. *)
Definition select_unused (e c : string) (t : list CodeRow) : list CodeRow :=
  filter (fun r => same_pair e c r && negb (used r)) t.

(** [GET email_codes?email=eq.E&used=eq.false] *)
Definition select_unused_email (e : string) (t : list CodeRow) : list CodeRow :=
  filter (fun r => (email r =? e)%string && negb (used r)) t.

Definition mark_used (r : CodeRow) : CodeRow :=
  mkCodeRow (email r) (code r) (expires_at r) true.

(** [PATCH email_codes?email=eq.E&code=eq.C] with body [{used: true}]: the
    filter names the email and the code only. *)
Definition patch_used (e c : string) (t : list CodeRow) : list CodeRow :=
  map (fun r => if same_pair e c r then mark_used r else r) t.

(** [POST email_codes] with one row. *)
Definition insert_row (r : CodeRow) (t : list CodeRow) : list CodeRow := t ++ [r].

(** [GET /auth/v1/admin/users?email=E] *)
Definition users_with (e : string) (us : list User) : list User :=
  filter (fun u => (user_email u =? e)%string) us.

(** [POST profiles] with [Prefer: resolution=merge-duplicates]. *)
Fixpoint upsert_profile (p : Profile) (t : list Profile) : list Profile :=
  match t with
  | [] => [p]
  | q :: r =>
      if (profile_id q =? profile_id p)%nat then p :: r
      else q :: upsert_profile p r
  end.

(** ** Outbound calls and the environment *)

Inductive Provider : Type := Resend | SendGrid | Mailgun.

Record Message : Type := mkMessage {
  msg_from : JsVal;
  msg_name : JsVal;
  msg_to : JsVal;
  msg_subject : string;
  msg_content : string;
  msg_reply_to : JsVal
}.

Inductive Call : Type :=
| GET_users (e : string)
| POST_users (e : string) (password : JsVal)
| GET_email_codes (e : string) (c : option string)
| POST_email_codes (r : CodeRow)
| PATCH_email_codes (e c : string)
| POST_profiles (p : Profile)
| POST_mail (via : Provider) (m : Message).

Inductive Endpoint : Type :=
| UsersLookup | UsersCreate | CodesLookup | CodesInsert | CodesPatch
| ProfilesUpsert | Mail (via : Provider).

(** What becomes of one [fetch]: the remote end serves the request, or it
    answers with an error status and a body ([None]: the body cannot be
    read), or the promise rejects. *)
Inductive Net : Type :=
| Served
| Refused (text : option string)
| Rejected.

Record Env : Type := mkEnv {
  SUPABASE_URL : option string;
  SUPABASE_SERVICE_ROLE_KEY : option string;
  RESEND_API_KEY : option string;
  SENDGRID_API_KEY : option string;
  MAILGUN_API_KEY : option string;
  MAILGUN_DOMAIN : option string;
  FROM_EMAIL : option string;
  Date_now : Z;
  (** [Math.floor(Math.random() * 900000)], reduced into [0, 900000) *)
  Math_random : Z;
  net : Endpoint -> Net
}.

Record World : Type := mkWorld { store : Store; calls : list Call }.

(** ** The handler monad *)

Inductive JsError : Type :=
| SyntaxError
| TypeError
| ReferenceError (name : string)
| FetchError.

(** [error.message]; the texts stand for whatever the runtime words them. *)
Definition message (e : JsError) : string :=
  match e with
  | SyntaxError => "Unexpected token in JSON"
  | TypeError => "not a function"
  | ReferenceError x => x ++ " is not defined"
  | FetchError => "fetch failed"
  end.

Inductive Result (A : Type) : Type :=
| Val (a : A)
| Exn (e : JsError).
Arguments Val {A} a.
Arguments Exn {A} e.

Definition M (A : Type) : Type := World -> Result A * World.

Definition ret {A} (a : A) : M A := fun w => (Val a, w).

Definition bind {A B} (m : M A) (k : A -> M B) : M B :=
  fun w =>
    match m w with
    | (Val a, w') => k a w'
    | (Exn e, w') => (Exn e, w')
    end.

Definition throw {A} (e : JsError) : M A := fun w => (Exn e, w).

Notation "x <- m ;; k" := (bind m (fun x => k))
  (at level 61, m at next level, right associativity).

(** [try { body } catch (error) { return handler(error) }] *)
Definition try_catch (m : M Response) (h : JsError -> Response)
  : World -> Response * World :=
  fun w =>
    match m w with
    | (Val r, w') => (r, w')
    | (Exn e, w') => (h e, w')
    end.

(** What [await fetch(..)] resolves to. *)
Inductive HttpRes (A : Type) : Type :=
| Ok (json : A)
| NotOk (text : option string).
Arguments Ok {A} json.
Arguments NotOk {A} text.

(** [await res.text()] *)
Definition res_text (t : option string) : M string :=
  match t with
  | Some s => ret s
  | None => throw TypeError
  end.

Definition log (c : Call) : M unit :=
  fun w => (Val tt, mkWorld (store w) (calls w ++ [c])).

Definition get_store : M Store := fun w => (Val (store w), w).

Definition put_store (s : Store) : M unit :=
  fun w => (Val tt, mkWorld s (calls w)).

(** One [fetch]: the call is logged, then the environment decides; a served
    call is answered by [serve], which may read and update the tables. *)
Definition fetch {A} (env : Env) (ep : Endpoint) (c : Call)
  (serve : M (HttpRes A)) : M (HttpRes A) :=
  _ <- log c ;;
  match net env ep with
  | Served => serve
  | Refused t => ret (NotOk t)
  | Rejected => throw FetchError
  end.

(** ** The REST interface of the identity and code store *)

Definition api_codes_lookup (env : Env) (e : string) (c : option string)
  : M (HttpRes (list CodeRow)) :=
  fetch env CodesLookup (GET_email_codes e c)
    (s <- get_store ;;
     ret (Ok (match c with
              | Some c => select_unused e c (email_codes s)
              | None => select_unused_email e (email_codes s)
              end))).

Definition api_codes_insert (env : Env) (r : CodeRow) : M (HttpRes unit) :=
  fetch env CodesInsert (POST_email_codes r)
    (s <- get_store ;;
     _ <- put_store (mkStore (insert_row r (email_codes s)) (users s) (profiles s)) ;;
     ret (Ok tt)).

Definition api_codes_patch (env : Env) (e c : string) : M (HttpRes unit) :=
  fetch env CodesPatch (PATCH_email_codes e c)
    (s <- get_store ;;
     _ <- put_store (mkStore (patch_used e c (email_codes s)) (users s) (profiles s)) ;;
     ret (Ok tt)).

Definition api_users_lookup (env : Env) (e : string) : M (HttpRes (list User)) :=
  fetch env UsersLookup (GET_users e)
    (s <- get_store ;; ret (Ok (users_with e (users s)))).

Definition conflict_text : string :=
  "A user with this email address has already been registered".

(** [POST /auth/v1/admin/users]: refused with a conflict when the email is
    taken, otherwise the account is created and its id returned. *)
Definition api_users_create (env : Env) (e : string) (password : JsVal)
  : M (HttpRes nat) :=
  fetch env UsersCreate (POST_users e password)
    (s <- get_store ;;
     match users_with e (users s) with
     | _ :: _ => ret (NotOk (Some conflict_text))
     | [] =>
         let id := length (users s) in
         _ <- put_store (mkStore (email_codes s) (users s ++ [mkUser id e]) (profiles s)) ;;
         ret (Ok id)
     end).

Definition api_profiles_upsert (env : Env) (p : Profile) : M (HttpRes unit) :=
  fetch env ProfilesUpsert (POST_profiles p)
    (s <- get_store ;;
     _ <- put_store (mkStore (email_codes s) (users s) (upsert_profile p (profiles s))) ;;
     ret (Ok tt)).

(** A mail provider keeps no state the handlers can see. *)
Definition api_mail (env : Env) (via : Provider) (m : Message) : M (HttpRes unit) :=
  fetch env (Mail via) (POST_mail via m) (ret (Ok tt)).

(** [JSON.parse(event.body || '{}')] *)
Definition JSON_parse (event : Event) : M JsObject :=
  match parsed event with
  | Some o => ret o
  | None => throw SyntaxError
  end.

(** [(v || '').toLowerCase().trim()] and [(v || '').trim()]: the method call
    throws a [TypeError] on a truthy value that is not a string. *)
Definition as_string (v : JsVal) : M string :=
  match js_or v (JStr "") with
  | JStr s => ret s
  | _ => throw TypeError
  end.

Definition unexpected : Response :=
  mkResponse 500 (error_body "An unexpected error occurred").

Definition method_not_allowed : Response :=
  mkResponse 405 (Text "Method Not Allowed").

Definition supabase_configured (env : Env) : bool :=
  is_set (SUPABASE_URL env) && is_set (SUPABASE_SERVICE_ROLE_KEY env).

(** ** [netlify/functions/verify-code.js] *)

Module VerifyCode.

Definition invalid_code : Response :=
  mkResponse 400 (error_body "Invalid or expired verification code").

Definition expired_code : Response :=
  mkResponse 400 (error_body "Verification code has expired").

Definition success : Response :=
  mkResponse 200 (JSON_stringify [("success", JBool true)]).

(** Lines 97-133: create the user, or fetch the id of the existing one. *)
Definition provision (env : Env) (email : string) (password : JsVal)
  : M (Response + nat) :=
  createRes <- api_users_create env email password ;;
  match createRes with
  | NotOk tex =>
      listRes <- api_users_lookup env email ;;
      listData <- match listRes with
                  | Ok us => ret us
                  | NotOk (Some _) => ret []
                  | NotOk None => throw SyntaxError
                  end ;;
      match listData with
      | u :: _ => ret (inr (user_id u))
      | [] =>
          tex <- res_text tex ;;
          ret (inl (mkResponse 400 (error_body ("Failed to create user: " ++ tex))))
      end
  | Ok id => ret (inr id)
  end.

Definition try_block (env : Env) (event : Event) : M Response :=
  body <- JSON_parse event ;;
  email <- as_string (prop body "email") ;;
  let email := trim (toLowerCase email) in
  code <- as_string (prop body "code") ;;
  let code := trim code in
  let password := js_or (prop body "password") (JStr "") in
  let plan := js_or (prop body "plan") (JStr "basic") in
  if negb (nonempty email) || negb (nonempty code) || negb (truthy password) then
    ret (mkResponse 400 (error_body "Email, code and password are required"))
  else if negb (supabase_configured env) then
    ret (mkResponse 500 (error_body "Supabase configuration is missing"))
  else
    codesRes <- api_codes_lookup env email (Some code) ;;
    match codesRes with
    | NotOk t =>
        t <- res_text t ;;
        ret (mkResponse 500 (error_body ("Failed to verify code: " ++ t)))
    | Ok [] => ret invalid_code
    | Ok (codeRow :: _) =>
        let now := Date_now env in
        let expiryTime := expires_at codeRow in
        if expiryTime <? now then ret expired_code
        else
          markRes <- api_codes_patch env email code ;;
          match markRes with
          | NotOk t2 =>
              t2 <- res_text t2 ;;
              ret (mkResponse 500 (error_body ("Failed to mark code as used: " ++ t2)))
          | Ok _ =>
              created <- provision env email password ;;
              match created with
              | inl failure => ret failure
              | inr userId =>
                  let trialEnd := now + 14 * 24 * 60 * 60 * 1000 in
                  _ <- api_profiles_upsert env (mkProfile userId plan trialEnd) ;;
                  ret success
              end
          end
    end.

Definition handler (env : Env) (event : Event) : World -> Response * World :=
  if negb (httpMethod event =? "POST")%string then fun w => (method_not_allowed, w)
  else try_catch (try_block env event) (fun _ => unexpected).

End VerifyCode.

(** ** The two revisions of [generate-code.js] *)

Definition env_val (o : option string) : JsVal :=
  match o with
  | Some s => JStr s
  | None => JUndefined
  end.

(** [Math.floor(100000 + Math.random() * 900000).toString()] *)
Definition new_code (env : Env) : string :=
  num_toString (100000 + Math_random env mod 900000).

Definition subject_line : string := "Your Lhyst verification code".

Definition html_content (code : string) : string :=
  "<p>Hello,</p><p>Your Lhyst verification code is <strong>" ++ code ++
  "</strong>. It expires in 1 hour.</p><p>Please enter this code on the verification page to complete your registration.</p>".

Definition LF : string := String (ascii_of_nat 10) EmptyString.

Definition text_content (code : string) : string :=
  "Hello," ++ LF ++ LF ++ "Your Lhyst verification code is " ++ code ++
  ". It expires in 1 hour." ++ LF ++
  "Please enter this code on the verification page to complete your registration.".

Definition already_registered : Response :=
  mkResponse 400 (error_body "This email is already registered").

(** The revision without cooldown, mailing through Resend only (the one kept
    next to [feedback.js], [unnamed/part_001]). *)
Module GenerateCodeResend.

(** Evaluating an identifier that no enclosing scope declares. *)
Definition unbound (x : string) : M Z := throw (ReferenceError x).

Definition try_block (env : Env) (event : Event) : M Response :=
  body <- JSON_parse event ;;
  email <- as_string (prop body "email") ;;
  let email := trim (toLowerCase email) in
  if negb (nonempty email) then
    ret (mkResponse 400 (error_body "Email is required"))
  else if negb (supabase_configured env) then
    ret (mkResponse 500 (error_body "Supabase configuration is missing"))
  else
    userRes <- api_users_lookup env email ;;
    match userRes with
    | NotOk errText =>
        errText <- res_text errText ;;
        ret (mkResponse 500 (error_body ("Failed to query users: " ++ errText)))
    | Ok (_ :: _) => ret already_registered
    | Ok [] =>
        let code := new_code env in
        (* [now] is declared nowhere in this revision *)
        now <- unbound "now" ;;
        let expiresAt := now + 60 * 60 * 1000 in
        insertRes <- api_codes_insert env (mkCodeRow email code expiresAt false) ;;
        match insertRes with
        | NotOk text =>
            text <- res_text text ;;
            ret (mkResponse 500 (error_body ("Failed to save verification code: " ++ text)))
        | Ok _ =>
            if negb (is_set (RESEND_API_KEY env)) || negb (is_set (FROM_EMAIL env)) then
              ret (mkResponse 500 (error_body "Email configuration is missing"))
            else
              emailRes <- api_mail env Resend
                (mkMessage (env_val (FROM_EMAIL env)) JUndefined (JStr email)
                   subject_line (html_content code) JUndefined) ;;
              match emailRes with
              | NotOk eText =>
                  eText <- res_text eText ;;
                  ret (mkResponse 500
                         (error_body ("Failed to send verification email: " ++ eText)))
              | Ok _ => ret (mkResponse 200 (JSON_stringify [("success", JBool true)]))
              end
        end
    end.

Definition handler (env : Env) (event : Event) : World -> Response * World :=
  if negb (httpMethod event =? "POST")%string then fun w => (method_not_allowed, w)
  else try_catch (try_block env event) (fun _ => unexpected).

End GenerateCodeResend.

(** The revision with the cooldown and the three-provider fallback
    ([unnamed/part_002]). *)
Module GenerateCodeFallback.

Definition cooldown : Response :=
  mkResponse 400 (error_body
    "A verification code has already been sent. Please check your email or wait until it expires.").

(** The two variables the helpers close over: [note] and [emailSent]. *)
Record Delivery : Type := mkDelivery { note : option string; emailSent : bool }.

(** [note ? `${note} | ${s}` : s] *)
Definition add_note (n : option string) (s : string) : option string :=
  match n with
  | Some n => if nonempty n then Some (n ++ " | " ++ s) else Some s
  | None => Some s
  end.

Definition provider_name (via : Provider) : string :=
  match via with
  | Resend => "Resend"
  | SendGrid => "SendGrid"
  | Mailgun => "Mailgun"
  end.

(** What each helper does with its provider's answer: [emailSent = true] on
    a success status, otherwise the error text (or, when the body cannot be
    read, "<provider> failed") is appended to [note]. *)
Definition settle (via : Provider) (res : HttpRes unit) (d : Delivery) : Delivery :=
  match res with
  | Ok _ => mkDelivery (note d) true
  | NotOk (Some t) =>
      mkDelivery (add_note (note d) (provider_name via ++ " error: " ++ t)) (emailSent d)
  | NotOk None =>
      mkDelivery (add_note (note d) (provider_name via ++ " failed")) (emailSent d)
  end.

Definition sendViaResend (env : Env) (email code : string) (d : Delivery) : M Delivery :=
  res <- api_mail env Resend
    (mkMessage (env_val (FROM_EMAIL env)) JUndefined (JStr email)
       subject_line (html_content code) JUndefined) ;;
  ret (settle Resend res d).

Definition sendViaSendGrid (env : Env) (email code : string) (d : Delivery) : M Delivery :=
  res <- api_mail env SendGrid
    (mkMessage (env_val (FROM_EMAIL env)) (JStr "Lhyst") (JStr email)
       subject_line (text_content code) JUndefined) ;;
  ret (settle SendGrid res d).

Definition sendViaMailgun (env : Env) (email code : string) (d : Delivery) : M Delivery :=
  res <- api_mail env Mailgun
    (mkMessage (env_val (FROM_EMAIL env)) JUndefined (JStr email)
       subject_line (text_content code) JUndefined) ;;
  ret (settle Mailgun res d).

(** Lines 316-332. *)
Definition dispatch (env : Env) (email code : string) : M Delivery :=
  let d := mkDelivery None false in
  if is_set (FROM_EMAIL env) then
    d <- (if is_set (RESEND_API_KEY env) then sendViaResend env email code d else ret d) ;;
    d <- (if negb (emailSent d) && is_set (SENDGRID_API_KEY env)
          then sendViaSendGrid env email code d else ret d) ;;
    d <- (if negb (emailSent d) && is_set (MAILGUN_API_KEY env) && is_set (MAILGUN_DOMAIN env)
          then sendViaMailgun env email code d else ret d) ;;
    if negb (emailSent d) && negb (is_set (note d)) then
      ret (mkDelivery (Some "No email provider configured or all providers failed")
             (emailSent d))
    else ret d
  else ret (mkDelivery (Some "FROM_EMAIL is not configured") (emailSent d)).

Definition success (code : string) (n : option string) : Response :=
  mkResponse 200
    (JSON_stringify [("success", JBool true); ("code", JStr code); ("note", env_val n)]).

Definition try_block (env : Env) (event : Event) : M Response :=
  body <- JSON_parse event ;;
  email <- as_string (prop body "email") ;;
  let email := trim (toLowerCase email) in
  if negb (nonempty email) then
    ret (mkResponse 400 (error_body "Email is required"))
  else if negb (supabase_configured env) then
    ret (mkResponse 500 (error_body "Supabase configuration is missing"))
  else
    userRes <- api_users_lookup env email ;;
    match userRes with
    | NotOk errText =>
        errText <- res_text errText ;;
        ret (mkResponse 500 (error_body ("Failed to query users: " ++ errText)))
    | Ok (_ :: _) => ret already_registered
    | Ok [] =>
        codesRes <- api_codes_lookup env email None ;;
        match codesRes with
        | NotOk err =>
            err <- res_text err ;;
            ret (mkResponse 500 (error_body ("Failed to query codes: " ++ err)))
        | Ok existingCodes =>
            let now := Date_now env in
            if existsb (fun row => negb (used row) && (expires_at row >? now)) existingCodes
            then ret cooldown
            else
              let code := new_code env in
              let expiresAt := now + 60 * 60 * 1000 in
              insertRes <- api_codes_insert env (mkCodeRow email code expiresAt false) ;;
              match insertRes with
              | NotOk text =>
                  text <- res_text text ;;
                  ret (mkResponse 500
                         (error_body ("Failed to save verification code: " ++ text)))
              | Ok _ =>
                  d <- dispatch env email code ;;
                  ret (success code (note d))
              end
        end
    end.

Definition handler (env : Env) (event : Event) : World -> Response * World :=
  if negb (httpMethod event =? "POST")%string then fun w => (method_not_allowed, w)
  else try_catch (try_block env event) (fun _ => unexpected).

End GenerateCodeFallback.

(** ** [netlify/functions/feedback.js] ([unnamed/part_001]) *)

Module Feedback.

Definition no_provider : Response :=
  mkResponse 500 (Text
    "No email provider configured. Set RESEND_API_KEY or SENDGRID_API_KEY or MAILGUN_API_KEY env var in Netlify.").

(** [x || undefined] *)
Definition or_undefined (v : JsVal) : JsVal := js_or v JUndefined.

Definition try_block (env : Env) (event : Event) : M Response :=
  if negb (httpMethod event =? "POST")%string then ret method_not_allowed
  else
    data <- JSON_parse event ;;
    let to := prop data "to" in
    let subject := "Feedback" in
    let text := slice0 20000 (js_String (js_or (prop data "body") (JStr ""))) in
    let replyTo := or_undefined (prop data "from") in
    let reporter := or_undefined (prop data "name") in
    if negb (truthy to) || negb (nonempty text) then
      ret (mkResponse 400 (Text "Missing 'to' or 'body'."))
    else
      let FROM_EMAIL :=
        if is_set (FROM_EMAIL env) then env_val (FROM_EMAIL env)
        else JStr "no-reply@yourdomain.com" in
      if is_set (RESEND_API_KEY env) then
        resp <- api_mail env Resend
          (mkMessage FROM_EMAIL JUndefined to subject text replyTo) ;;
        match resp with
        | NotOk t =>
            t <- res_text t ;;
            ret (mkResponse 500 (Text ("Resend error: " ++ t)))
        | Ok _ => ret (mkResponse 200 (Text "Sent via Resend"))
        end
      else if is_set (SENDGRID_API_KEY env) then
        resp <- api_mail env SendGrid
          (mkMessage FROM_EMAIL (js_or reporter (JStr "Lhyst")) to subject text replyTo) ;;
        match resp with
        | Ok _ => ret (mkResponse 200 (Text "Sent via SendGrid"))
        | NotOk t =>
            t <- res_text t ;;
            ret (mkResponse 500 (Text ("SendGrid error: " ++ t)))
        end
      else if is_set (MAILGUN_API_KEY env) && is_set (MAILGUN_DOMAIN env) then
        resp <- api_mail env Mailgun
          (mkMessage FROM_EMAIL JUndefined to subject text replyTo) ;;
        match resp with
        | NotOk t =>
            t <- res_text t ;;
            ret (mkResponse 500 (Text ("Mailgun error: " ++ t)))
        | Ok _ => ret (mkResponse 200 (Text "Sent via Mailgun"))
        end
      else ret no_provider.

Definition handler (env : Env) (event : Event) : World -> Response * World :=
  try_catch (try_block env event)
    (fun err => mkResponse 500 (Text ("Server error: " ++ message err))).

End Feedback.

(** ** Running requests against a store *)

Definition fresh (s : Store) : World := mkWorld s [].

Definition sample_env : Env :=
  mkEnv (Some "https://db.example") (Some "service-key")
        (Some "re_key") (Some "sg_key") (Some "mg_key") (Some "mg.example")
        (Some "no-reply@lhyst.example") 1000 382913 (fun _ => Served).

Definition post (o : JsObject) : Event := mkEvent "POST" (Some o).

Definition empty_store : Store := mkStore [] [] [].

(** The requests that reach the four functions, and their effect on the
    tables; each invocation starts with an empty call log. *)
Inductive Request : Type :=
| ToVerifyCode (env : Env) (event : Event)
| ToGenerateCodeResend (env : Env) (event : Event)
| ToGenerateCodeFallback (env : Env) (event : Event)
| ToFeedback (env : Env) (event : Event).

Definition invoke (q : Request) (s : Store) : Response * World :=
  match q with
  | ToVerifyCode env event => VerifyCode.handler env event (fresh s)
  | ToGenerateCodeResend env event => GenerateCodeResend.handler env event (fresh s)
  | ToGenerateCodeFallback env event => GenerateCodeFallback.handler env event (fresh s)
  | ToFeedback env event => Feedback.handler env event (fresh s)
  end.

Definition serve (q : Request) (s : Store) : Store := store (snd (invoke q s)).

Definition serve_all (qs : list Request) (s : Store) : Store :=
  fold_left (fun s q => serve q s) qs s.

(** The normalisation both flows apply to the [email] property. *)
Definition normalize (e : string) : string := trim (toLowerCase e).

(** ** Vocabulary of the statements *)

(** [(o[k] || '')] when it is a string, as the handlers read [email] and [code]. *)
Definition str_prop (o : JsObject) (k : string) : option string :=
  match js_or (prop o k) (JStr "") with
  | JStr s => Some s
  | _ => None
  end.

(** The (email, code) pair a verification request stands for, after lines
    21-23 of [verify-code.js]. *)
Definition claimed_pair (event : Event) : option (string * string) :=
  match parsed event with
  | Some o =>
      match str_prop o "email", str_prop o "code" with
      | Some e, Some c => Some (normalize e, trim c)
      | _, _ => None
      end
  | None => None
  end.

Definition password_given (event : Event) : bool :=
  match parsed event with
  | Some o => truthy (prop o "password")
  | None => false
  end.

(** A verification request that passes the checks of lines 14 and 26 and
    asks to redeem code [c] for the normalised email [e]. *)
Definition redeems (event : Event) (e c : string) : Prop :=
  httpMethod event = "POST" /\ claimed_pair event = Some (e, c) /\
  e <> "" /\ c <> "" /\ password_given event = true.

(** The store is configured and answers the code lookup. *)
Definition lookup_answered (env : Env) : Prop :=
  supabase_configured env = true /\ net env CodesLookup = Served.

(** The normalised email an issuance request is for (lines 127-128). *)
Definition requested_email (event : Event) : option string :=
  match parsed event with
  | Some o =>
      match str_prop o "email" with
      | Some e => Some (normalize e)
      | None => None
      end
  | None => None
  end.

(** An issuance request that passes the checks on the method, on [email]
    and on the configuration, and whose user lookup the store answers. *)
Definition asks_code_for (env : Env) (event : Event) (e : string) : Prop :=
  httpMethod event = "POST" /\ requested_email event = Some e /\ e <> "" /\
  supabase_configured env = true /\ net env UsersLookup = Served.

(** The pair has no redeemable row and the email has an account. *)
Definition Consumed (e c : string) (s : Store) : Prop :=
  select_unused e c (email_codes s) = [] /\ users_with e (users s) <> [].

(** The providers a list of calls went to, in order. *)
Fixpoint mailed (cs : list Call) : list Provider :=
  match cs with
  | [] => []
  | POST_mail via _ :: r => via :: mailed r
  | _ :: r => mailed r
  end.

Definition when_set (b : bool) (via : Provider) : list Provider :=
  if b then [via] else [].

(** The providers [generate-code.js] regards as configured, in priority order. *)
Definition configured (env : Env) : list Provider :=
  if is_set (FROM_EMAIL env) then
    when_set (is_set (RESEND_API_KEY env)) Resend ++
    when_set (is_set (SENDGRID_API_KEY env)) SendGrid ++
    when_set (is_set (MAILGUN_API_KEY env) && is_set (MAILGUN_DOMAIN env)) Mailgun
  else [].

(** The providers [feedback.js] regards as configured ([FROM_EMAIL] has a
    default there). *)
Definition feedback_configured (env : Env) : list Provider :=
  when_set (is_set (RESEND_API_KEY env)) Resend ++
  when_set (is_set (SENDGRID_API_KEY env)) SendGrid ++
  when_set (is_set (MAILGUN_API_KEY env) && is_set (MAILGUN_DOMAIN env)) Mailgun.

(** The providers the dispatch of the issuer tries, in order: it goes on
    after a provider that answers with an error status and stops after one
    that accepts; a [fetch] that rejects ends it as well, the exception
    leaving the helper and the handler's [try] block. *)
Fixpoint attempts (env : Env) (ps : list Provider) : list Provider :=
  match ps with
  | [] => []
  | via :: rest =>
      match net env (Mail via) with
      | Refused _ => via :: attempts env rest
      | _ => [via]
      end
  end.

(** The failure reason kept for a provider that answered with an error. *)
Definition failure_reason (env : Env) (via : Provider) : option string :=
  match net env (Mail via) with
  | Refused (Some t) => Some (GenerateCodeFallback.provider_name via ++ " error: " ++ t)
  | Refused None => Some (GenerateCodeFallback.provider_name via ++ " failed")
  | _ => None
  end.

Fixpoint reasons (env : Env) (ps : list Provider) : list string :=
  match ps with
  | [] => []
  | via :: rest =>
      match failure_reason env via with
      | Some t => t :: reasons env rest
      | None => reasons env rest
      end
  end.

Definition no_provider_note : string :=
  "No email provider configured or all providers failed".

Definition no_sender_note : string := "FROM_EMAIL is not configured".

Definition answered_ok (env : Env) (via : Provider) : bool :=
  match net env (Mail via) with
  | Served => true
  | _ => false
  end.

(** The note the issuer ends with: the failure reasons of the providers
    tried, in order, or one of the two fixed notes when nothing was tried. *)
Definition retained_note (env : Env) : option string :=
  if is_set (FROM_EMAIL env) then
    match reasons env (attempts env (configured env)) with
    | [] =>
        if existsb (answered_ok env) (attempts env (configured env)) then None
        else Some no_provider_note
    | rs => Some (String.concat " | " rs)
    end
  else Some no_sender_note.






(** The 200 body the issuer endpoint is documented with: [{success:true}],
    possibly with a note, and nothing else. *)
Definition success_and_note_only (b : Body) : Prop :=
  exists n, b = JSON_stringify [("success", JBool true); ("note", n)].

(** The most recently inserted row among those a lookup matches
    ([POST email_codes] appends). *)
Definition most_recent_match (e c : string) (t : list CodeRow) : option CodeRow :=
  hd_error (rev (select_unused e c t)).

(** The reading of the verifier's contract that any matching unused row
    with an expiry in the past makes the answer [ExpiredCodeError]. *)
Definition any_lapsed_row_gives_expired (env : Env) (event : Event) (s : Store) : Prop :=
  forall e c r,
    redeems event e c -> lookup_answered env ->
    In r (select_unused e c (email_codes s)) ->
    expires_at r < Date_now env ->
    fst (VerifyCode.handler env event (fresh s)) = VerifyCode.expired_code.

(** The reading of the data-model invariant that the expiry of the most
    recent matching row decides between [ExpiredCodeError] and the rest. *)
Definition most_recent_expiry_decides (env : Env) (event : Event) (s : Store) : Prop :=
  forall e c r,
    redeems event e c -> lookup_answered env ->
    most_recent_match e c (email_codes s) = Some r ->
    (fst (VerifyCode.handler env event (fresh s)) = VerifyCode.expired_code <->
     expires_at r < Date_now env).




(** ** Sample requests, environments and stores *)

Definition alice_row : CodeRow := mkCodeRow "a@example.com" "482913" 3601000 false.

Definition alice_redeems : Event :=
  post [("email", JStr "A@Example.com "); ("code", JStr "482913");
        ("password", JStr "x"); ("plan", JStr "pro")].

Definition alice_asks : Event := post [("email", JStr "a@example.com")].

Definition late_env : Env :=
  mkEnv (Some "https://db.example") (Some "service-key")
        (Some "re_key") (Some "sg_key") (Some "mg_key") (Some "mg.example")
        (Some "no-reply@lhyst.example") 3800000 382913 (fun _ => Served).

Definition second_env : Env :=
  mkEnv (Some "https://db.example") (Some "service-key")
        (Some "re_key") (Some "sg_key") (Some "mg_key") (Some "mg.example")
        (Some "no-reply@lhyst.example") 3700000 382913 (fun _ => Served).

(** Two issuances a little over an hour apart that draw the same code: by
    the time of [late_env] the older row has lapsed, the newer one has not. *)
Definition twice_issued : Store :=
  serve_all [ToGenerateCodeFallback sample_env alice_asks;
             ToGenerateCodeFallback second_env alice_asks] empty_store.

Definition stale_twin : CodeRow := mkCodeRow "a@example.com" "482913" 5 false.
Definition spent_twin : CodeRow := mkCodeRow "a@example.com" "482913" 7 true.
Definition other_row : CodeRow := mkCodeRow "b@example.com" "482913" 3601000 false.

Definition all_down_env : Env :=
  mkEnv (Some "https://db.example") (Some "service-key")
        (Some "re_key") (Some "sg_key") None (Some "mg.example")
        (Some "no-reply@lhyst.example") 1000 382913
        (fun ep => match ep with
                   | Mail Resend => Refused (Some "quota exceeded")
                   | Mail _ => Refused None
                   | _ => Served
                   end).

Definition alice_registered : Store :=
  mkStore [] [mkUser 0 "a@example.com"] [].

Definition feedback_event : Event :=
  post [("to", JStr "ops@lhyst.example"); ("body", JStr "The log page is slow")].

Definition resend_down_env : Env :=
  mkEnv (Some "https://db.example") (Some "service-key")
        (Some "re_key") (Some "sg_key") (Some "mg_key") (Some "mg.example")
        (Some "no-reply@lhyst.example") 1000 382913
        (fun ep => match ep with
                   | Mail Resend => Refused (Some "quota exceeded")
                   | _ => Served
                   end).

(** ** Further vocabulary: the verifier *)

(** [body.password || ''] and [body.plan || 'basic'] (lines 24-25). *)
Definition password_of (event : Event) : JsVal :=
  js_or (match parsed event with
         | Some o => prop o "password"
         | None => JUndefined
         end) (JStr "").

Definition plan_of (event : Event) : JsVal :=
  js_or (match parsed event with
         | Some o => prop o "plan"
         | None => JUndefined
         end) (JStr "basic").

(** Fourteen days in milliseconds. *)
Definition trial_length : Z := 1209600000.

Definition fields_required : Response :=
  mkResponse 400 (error_body "Email, code and password are required").

Definition supabase_missing : Response :=
  mkResponse 500 (error_body "Supabase configuration is missing").

(** The part of a code row that no handler is meant to rewrite. *)
Definition same_identity (r r' : CodeRow) : Prop :=
  email r' = email r /\ code r' = code r /\ expires_at r' = expires_at r /\
  (used r = true -> used r' = true).

(** ** Further vocabulary: strings *)

(** Nothing to strip at the front. *)
Definition clean_start (s : string) : bool :=
  match s with
  | EmptyString => true
  | String c _ => negb (is_space c)
  end.

(** ** Further vocabulary: the issuer *)

(** A row that makes the issuer with cooldown refuse (line 178). *)
Definition live_for (e : string) (now : Z) (r : CodeRow) : Prop :=
  email r = e /\ used r = false /\ now < expires_at r.

(** The row an issuance writes (lines 190-208). *)
Definition issued_row (env : Env) (e : string) : CodeRow :=
  mkCodeRow e (new_code env) (Date_now env + 60 * 60 * 1000) false.

Definition save_failed (t : string) : Response :=
  mkResponse 500 (error_body ("Failed to save verification code: " ++ t)).

Definition email_required : Response :=
  mkResponse 400 (error_body "Email is required").

(** A property of the object a JSON body was made from. *)
Definition json_prop (b : Body) (k : string) : JsVal :=
  match b with
  | Json o => prop o k
  | Text _ => JUndefined
  end.

(** ** Further vocabulary: the feedback relay *)

(** [String(data.body || "")] before it is cut (line 17). *)
Definition feedback_text (o : JsObject) : string :=
  js_String (js_or (prop o "body") (JStr "")).

Definition missing_to_or_body : Response :=
  mkResponse 400 (Text "Missing 'to' or 'body'.").

(** ** The Stripe checkout functions *)

(** What becomes of the [fetch] to [api.stripe.com/v1/checkout/sessions]
    and of [response.json()]. *)
Inductive StripeReply : Type :=
| StripeAnswer (status : Z) (data : JsObject)
| StripeGarbage (status : Z)
| StripeLost.

(** [response.ok] *)
Definition http_ok (status : Z) : bool := (200 <=? status) && (status <=? 299).

(** The pairs appended to a [URLSearchParams], in order. *)
Definition Form : Type := list (string * string).

Fixpoint form_get (f : Form) (k : string) : option string :=
  match f with
  | [] => None
  | (k', v) :: r => if (k' =? k)%string then Some v else form_get r k
  end.

(** [v === 'literal'] *)
Definition is_str (v : JsVal) (s : string) : bool :=
  match v with
  | JStr t => (t =? s)%string
  | _ => false
  end.

(** A JavaScript number after [Math.round]. *)
Inductive Rounded : Type :=
| Int (n : Z)
| NaN
| Infinity (negative : bool).

(** [Math.round(x)]: the integer closest to [x], ties going up.  A finite
    double is [m * 2^e]; the rounding is done on the integers. *)
Definition Math_round (x : PrimFloat.float) : Rounded :=
  match FloatOps.Prim2SF x with
  | SpecFloat.S754_zero _ => Int 0
  | SpecFloat.S754_infinity s => Infinity s
  | SpecFloat.S754_nan => NaN
  | SpecFloat.S754_finite s m e =>
      let v := if s then - Z.pos m else Z.pos m in
      if 0 <=? e then Int (v * 2 ^ e)
      else Int ((2 * v + 2 ^ (- e)) / 2 ^ (- e + 1))
  end.

(** [n.toString()] for a rounded number (below 1e21 in size). *)
Definition Rounded_toString (n : Rounded) : string :=
  match n with
  | Int n => num_toString n
  | NaN => "NaN"
  | Infinity false => "Infinity"
  | Infinity true => "-Infinity"
  end.

Definition checkout_method_not_allowed : Response :=
  mkResponse 405 (error_body "Method Not Allowed").

Definition invalid_json : Response := mkResponse 400 (error_body "Invalid JSON").

Definition internal_server_error : Response :=
  mkResponse 500 (error_body "Internal Server Error").

Definition success_url : string :=
  "https://lhystlog.com/#/success?session_id={CHECKOUT_SESSION_ID}".

Definition cancel_url : string := "https://lhystlog.com/#/cancel".

(** From [await response.json()] to the end of the handler; the three
    revisions of the function have this part word for word. *)
Definition relay_session (reply : StripeReply) : Response :=
  match reply with
  | StripeLost => internal_server_error
  | StripeGarbage _ => internal_server_error
  | StripeAnswer status data =>
      if negb (http_ok status) then mkResponse status (JSON_stringify data)
      else mkResponse 200
             (JSON_stringify [("url", prop data "url"); ("id", prop data "id")])
  end.

(** [netlify/functions/create-checkout-session.js]: monthly or yearly. *)
Module CreateCheckoutSession.

Import PrimFloat.
#[local] Set Warnings "-inexact-float".

Definition amount (plan : string) : Rounded :=
  if (plan =? "yearly")%string then Math_round (8.99 * 12 * 100)%float
  else Int 999.

Definition form (body : JsObject) : Form :=
  let plan := if is_str (prop body "plan") "yearly" then "yearly" else "monthly" in
  let interval := if (plan =? "yearly")%string then "year" else "month" in
  [("payment_method_types[]", "card");
   ("line_items[0][price_data][currency]", "usd");
   ("line_items[0][price_data][product_data][name]", "Lhyst Subscription");
   ("line_items[0][price_data][recurring][interval]", interval);
   ("line_items[0][price_data][unit_amount]", Rounded_toString (amount plan));
   ("line_items[0][quantity]", "1");
   ("mode", "subscription");
   ("subscription_data[trial_period_days]", "14");
   ("success_url", success_url);
   ("cancel_url", cancel_url)].

(** The response, and the forms posted to Stripe. *)
Definition handler (reply : StripeReply) (event : Event) : Response * list Form :=
  if negb (httpMethod event =? "POST")%string then (checkout_method_not_allowed, [])
  else
    match parsed event with
    | None => (invalid_json, [])
    | Some body => (relay_session reply, [form body])
    end.

End CreateCheckoutSession.

(** The revision that prices a plan and a billing frequency
    ([unnamed/part_002]). *)
Module CreateCheckoutSessionPlans.

Import PrimFloat.
#[local] Set Warnings "-inexact-float".

Definition en_dash : string :=
  String (ascii_of_nat 226) (String (ascii_of_nat 128) (String (ascii_of_nat 147) "")).

Definition baseMonthlyPrice (selectedPlan : string) : float :=
  if (selectedPlan =? "pro")%string then (9.99 * 1.5)%float else 9.99%float.

Definition amountInCents (selectedPlan frequency : string) : Rounded :=
  if (frequency =? "yearly")%string then
    let yearlyTotal := (baseMonthlyPrice selectedPlan * 12 * 0.9)%float in
    Math_round (yearlyTotal * 100)%float
  else Math_round (baseMonthlyPrice selectedPlan * 100)%float.

Definition form (body : JsObject) : Form :=
  let selectedPlan := if is_str (prop body "plan") "pro" then "pro" else "basic" in
  let frequency := if is_str (prop body "frequency") "yearly" then "yearly" else "monthly" in
  let interval := if (frequency =? "yearly")%string then "year" else "month" in
  [("payment_method_types[]", "card");
   ("line_items[0][price_data][currency]", "usd");
   ("line_items[0][price_data][product_data][name]",
    "Lhyst Subscription " ++ en_dash ++ " " ++
    (if (selectedPlan =? "pro")%string then "Pro" else "Basic"));
   ("line_items[0][price_data][recurring][interval]", interval);
   ("line_items[0][price_data][unit_amount]",
    Rounded_toString (amountInCents selectedPlan frequency));
   ("line_items[0][quantity]", "1");
   ("mode", "subscription");
   ("subscription_data[trial_period_days]", "14");
   ("success_url", success_url);
   ("cancel_url", cancel_url)].

Definition handler (reply : StripeReply) (event : Event) : Response * list Form :=
  if negb (httpMethod event =? "POST")%string then (checkout_method_not_allowed, [])
  else
    match parsed event with
    | None => (invalid_json, [])
    | Some body => (relay_session reply, [form body])
    end.

End CreateCheckoutSessionPlans.

(** The revision that reads Stripe price ids from the environment
    ([unnamed/part_000]). *)
Module CreateCheckoutSessionPriceIds.

Record Prices : Type := mkPrices {
  PRICE_BASIC_MONTHLY : option string;
  PRICE_BASIC_YEARLY : option string;
  PRICE_PRO_MONTHLY : option string;
  PRICE_PRO_YEARLY : option string
}.

(** A destructuring default: used when the property is [undefined]. *)
Definition or_default (v : JsVal) (d : string) : JsVal :=
  match v with
  | JUndefined => JStr d
  | _ => v
  end.

Definition priceId (prices : Prices) (selectedPlan frequency : JsVal) : option string :=
  if is_str selectedPlan "pro" && is_str frequency "yearly" then PRICE_PRO_YEARLY prices
  else if is_str selectedPlan "pro" && is_str frequency "monthly" then PRICE_PRO_MONTHLY prices
  else if is_str selectedPlan "basic" && is_str frequency "yearly" then PRICE_BASIC_YEARLY prices
  else PRICE_BASIC_MONTHLY prices.

Definition price_missing : Response :=
  mkResponse 500 (error_body "Stripe price configuration is missing").

Definition form (price : string) (selectedPlan : JsVal) : Form :=
  [("payment_method_types[]", "card");
   ("line_items[0][price]", price);
   ("line_items[0][quantity]", "1");
   ("mode", "subscription");
   ("subscription_data[trial_period_days]", "14");
   ("success_url", success_url ++ "&plan=" ++ js_String selectedPlan);
   ("cancel_url", cancel_url)].

Definition handler (prices : Prices) (reply : StripeReply) (event : Event)
  : Response * list Form :=
  if negb (httpMethod event =? "POST")%string then (checkout_method_not_allowed, [])
  else
    match parsed event with
    | None => (invalid_json, [])
    | Some body =>
        let selectedPlan := or_default (prop body "plan") "basic" in
        let frequency := or_default (prop body "frequency") "monthly" in
        match priceId prices selectedPlan frequency with
        | Some price =>
            if nonempty price then (relay_session reply, [form price selectedPlan])
            else (price_missing, [])
        | None => (price_missing, [])
        end
    end.

End CreateCheckoutSessionPriceIds.

(** The keys of the forms the checkout functions post. *)
Definition unit_amount_key : string := "line_items[0][price_data][unit_amount]".
Definition interval_key : string := "line_items[0][price_data][recurring][interval]".
Definition trial_key : string := "subscription_data[trial_period_days]".
Definition price_key : string := "line_items[0][price]".

(** A request the checkout functions go on with (POST, parsable body). *)
Definition orders (event : Event) (o : JsObject) : Prop :=
  httpMethod event = "POST" /\ parsed event = Some o.

Definition checkout_event : Event :=
  post [("plan", JStr "pro"); ("frequency", JStr "weekly")].

Definition sample_prices : CreateCheckoutSessionPriceIds.Prices :=
  CreateCheckoutSessionPriceIds.mkPrices
    (Some "price_bm") (Some "price_by") (Some "price_pm") (Some "price_py").

(** ** Further vocabulary: later requests and plain text *)

(** A request that cannot write a code row: anything but a request to the
    issuer with the fallback (the other issuer never gets to its insert). *)
Definition issues_nothing (q : Request) : Prop :=
  match q with
  | ToGenerateCodeFallback _ _ => False
  | _ => True
  end.

(** A string of ASCII characters. *)
Fixpoint ascii_only (s : string) : bool :=
  match s with
  | EmptyString => true
  | String c r => (nat_of_ascii c <? 128)%nat && ascii_only r
  end.

(** ** Further sample requests, environments and stores *)


Definition plain_feedback : Event :=
  post [("to", JStr "ops@lhyst.example"); ("from", JStr "cook@lhyst.example");
        ("body", JStr "The log page is slow")].

Definition alice_known : Store :=
  mkStore [alice_row] [mkUser 7 "b@example.com"; mkUser 8 "a@example.com"]
          [mkProfile 8 (JStr "basic") 99].

Definition signup_closed_env : Env :=
  mkEnv (Some "https://db.example") (Some "service-key")
        (Some "re_key") (Some "sg_key") (Some "mg_key") (Some "mg.example")
        (Some "no-reply@lhyst.example") 1000 382913
        (fun ep => match ep with
                   | UsersCreate => Refused (Some "Signups not allowed")
                   | _ => Served
                   end).

Definition profiles_down_env : Env :=
  mkEnv (Some "https://db.example") (Some "service-key")
        (Some "re_key") (Some "sg_key") (Some "mg_key") (Some "mg.example")
        (Some "no-reply@lhyst.example") 1000 382913
        (fun ep => match ep with
                   | ProfilesUpsert => Refused (Some "relation profiles does not exist")
                   | _ => Served
                   end).

Definition codes_table_down_env : Env :=
  mkEnv (Some "https://db.example") (Some "service-key")
        (Some "re_key") (Some "sg_key") (Some "mg_key") (Some "mg.example")
        (Some "no-reply@lhyst.example") 1000 382913
        (fun ep => match ep with
                   | CodesInsert => Refused (Some "permission denied")
                   | _ => Served
                   end).

Definition soon_env : Env :=
  mkEnv (Some "https://db.example") (Some "service-key")
        (Some "re_key") (Some "sg_key") (Some "mg_key") (Some "mg.example")
        (Some "no-reply@lhyst.example") 600000 0 (fun _ => Served).

Definition resend_unreachable_env : Env :=
  mkEnv (Some "https://db.example") (Some "service-key")
        (Some "re_key") (Some "sg_key") (Some "mg_key") (Some "mg.example")
        (Some "no-reply@lhyst.example") 1000 382913
        (fun ep => match ep with
                   | Mail Resend => Rejected
                   | _ => Served
                   end).

(** * Properties *)

(** ** Basic facts *)

Lemma nonempty_true s : s <> "" -> nonempty s = true.
Proof.
  intros H. unfold nonempty. destruct (String.eqb_spec s ""); [contradiction|reflexivity].
Qed.

Lemma js_or_truthy v d : truthy v = true -> js_or v d = v.
Proof. unfold js_or. intros ->. reflexivity. Qed.

Lemma post_method event : httpMethod event = "POST" ->
  negb (httpMethod event =? "POST")%string = false.
Proof. intros ->. reflexivity. Qed.

(** ** Tactics: symbolic execution of the handlers *)

Ltac unfold_api :=
  unfold api_codes_lookup, api_codes_insert, api_codes_patch, api_users_lookup,
    api_users_create, api_profiles_upsert, api_mail, fetch, JSON_parse, as_string,
    res_text, log, get_store, put_store, bind, ret, throw in *.

Ltac break_match :=
  match goal with
  | |- context [match ?x with _ => _ end] =>
      lazymatch x with
      | context [match _ with _ => _ end] => fail
      | _ => destruct x eqn:?
      end
  end.

Ltac run_verify :=
  unfold VerifyCode.handler, try_catch, VerifyCode.try_block, VerifyCode.provision;
  unfold_api.

Ltac run_resend :=
  unfold GenerateCodeResend.handler, try_catch, GenerateCodeResend.try_block,
    GenerateCodeResend.unbound;
  unfold_api.

Ltac run_fallback :=
  unfold GenerateCodeFallback.handler, try_catch, GenerateCodeFallback.try_block,
    GenerateCodeFallback.dispatch, GenerateCodeFallback.sendViaResend,
    GenerateCodeFallback.sendViaSendGrid, GenerateCodeFallback.sendViaMailgun;
  unfold_api.

Ltac run_feedback :=
  unfold Feedback.handler, try_catch, Feedback.try_block;
  unfold_api.

Ltac break_match_in H :=
  match type of H with
  | context [match ?x with _ => _ end] =>
      lazymatch x with
      | context [match _ with _ => _ end] => fail
      | _ => destruct x eqn:?
      end
  end.

Ltac run_dispatch :=
  unfold GenerateCodeFallback.dispatch, GenerateCodeFallback.sendViaResend,
    GenerateCodeFallback.sendViaSendGrid, GenerateCodeFallback.sendViaMailgun;
  unfold_api.

Ltac rewrite_nets :=
  repeat match goal with
         | H : net _ _ = _ |- _ => rewrite H
         end.

Ltac reach_user_lookup Hask :=
  let Hm := fresh "Hm" in
  let He := fresh "He" in
  let Hne := fresh "Hne" in
  let Hcfg := fresh "Hcfg" in
  let Hnet := fresh "Hnet" in
  destruct Hask as (Hm & He & Hne & Hcfg & Hnet);
  unfold requested_email, str_prop, normalize in He;
  rewrite (post_method _ Hm);
  unfold try_catch, JSON_parse, as_string, bind, ret;
  match type of He with
  | context [parsed ?ev] => destruct (parsed ev) as [?o|]; [|discriminate He]
  end;
  match type of He with
  | context [js_or ?a ?b] => destruct (js_or a b); try discriminate He
  end;
  injection He as <-;
  rewrite (nonempty_true _ Hne), Hcfg; simpl negb; cbv iota;
  unfold api_users_lookup, fetch, log, get_store, bind, ret; rewrite Hnet;
  simpl.

(** ** Tables *)

Lemma select_unused_patch_nil e c e' c' t :
  select_unused e c t = [] -> select_unused e c (patch_used e' c' t) = [].
Proof.
  unfold select_unused, patch_used.
  induction t as [|r t IH]; simpl; [reflexivity|].
  intros H.
  destruct (same_pair e c r && negb (used r)) eqn:Hr; [discriminate|].
  specialize (IH H).
  destruct (same_pair e' c' r); simpl.
  - unfold same_pair in *. simpl.
    rewrite andb_false_r. exact IH.
  - rewrite Hr. exact IH.
Qed.

Lemma select_unused_own_patch e c t : select_unused e c (patch_used e c t) = [].
Proof.
  unfold select_unused, patch_used.
  induction t as [|r t IH]; simpl; [reflexivity|].
  destruct (same_pair e c r) eqn:Hr; simpl.
  - unfold same_pair in *. simpl. rewrite andb_false_r. exact IH.
  - rewrite Hr. simpl. exact IH.
Qed.

Lemma select_unused_insert_other e c r t :
  email r <> e -> select_unused e c (insert_row r t) = select_unused e c t.
Proof.
  intros Hne. unfold select_unused, insert_row.
  rewrite filter_app. simpl.
  unfold same_pair.
  destruct (String.eqb_spec (email r) e) as [Heq|_]; [contradiction|].
  simpl. apply app_nil_r.
Qed.

Lemma users_with_app e us vs :
  users_with e (us ++ vs) = (users_with e us ++ users_with e vs)%list.
Proof. unfold users_with. apply filter_app. Qed.

Lemma users_with_grows e us vs : users_with e us <> [] -> users_with e (us ++ vs) <> [].
Proof.
  rewrite users_with_app. destruct (users_with e us); [congruence|discriminate].
Qed.

(** ** What each function can do to the tables *)

Lemma verify_keeps_consumed e c env event w :
  Consumed e c (store w) ->
  Consumed e c (store (snd (VerifyCode.handler env event w))).
Proof.
  intros [Hc Hu]. unfold Consumed. run_verify.
  repeat (break_match; simpl); try (split; assumption).
  all: split; [apply select_unused_patch_nil; assumption|];
    try assumption; apply users_with_grows; assumption.
Qed.

Lemma resend_keeps_store env event w :
  store (snd (GenerateCodeResend.handler env event w)) = store w.
Proof. run_resend. repeat (break_match; simpl); reflexivity. Qed.

Lemma feedback_keeps_store env event w :
  store (snd (Feedback.handler env event w)) = store w.
Proof. run_feedback. repeat (break_match; simpl); reflexivity. Qed.

Lemma fallback_keeps_consumed e c env event w :
  Consumed e c (store w) ->
  Consumed e c (store (snd (GenerateCodeFallback.handler env event w))).
Proof.
  intros [Hc Hu]. unfold Consumed. run_fallback.
  repeat (break_match; simpl); try (split; assumption).
  all: split; [|assumption].
  all: rewrite select_unused_insert_other; [assumption|]; simpl.
  all: intros <-; congruence.
Qed.

Lemma serve_keeps_consumed e c q s : Consumed e c s -> Consumed e c (serve q s).
Proof.
  intros H. destruct q; unfold serve, invoke.
  - apply (verify_keeps_consumed e c env event (fresh s) H).
  - rewrite resend_keeps_store. exact H.
  - apply (fallback_keeps_consumed e c env event (fresh s) H).
  - rewrite feedback_keeps_store. exact H.
Qed.

Lemma serve_all_keeps_consumed e c qs :
  forall s, Consumed e c s -> Consumed e c (serve_all qs s).
Proof.
  unfold serve_all.
  induction qs as [|q qs IH]; simpl; intros s H; [exact H|].
  apply IH, serve_keeps_consumed, H.
Qed.

(** A successful verification leaves the pair consumed. *)
Lemma verify_success_consumes env event s w e c :
  VerifyCode.handler env event (fresh s) = (VerifyCode.success, w) ->
  claimed_pair event = Some (e, c) ->
  Consumed e c (store w).
Proof.
  unfold claimed_pair, str_prop, normalize, Consumed.
  run_verify. intros H Hp.
  repeat (break_match_in H; simpl in H; try discriminate H).
  all: injection H as <-; simpl.
  all: injection Hp as <- <-.
  all: split; [apply select_unused_own_patch|].
  all: try (rewrite users_with_app; simpl; rewrite String.eqb_refl;
            intro Hx; apply app_eq_nil in Hx; destruct Hx; discriminate).
  all: congruence.
Qed.

(** The handler up to the code lookup, for a request that passes the checks. *)
Lemma verify_reaches_lookup env event w e c :
  redeems event e c -> lookup_answered env ->
  VerifyCode.handler env event w =
  try_catch
    (match select_unused e c (email_codes (store w)) with
     | [] => ret VerifyCode.invalid_code
     | codeRow :: _ =>
         if expires_at codeRow <? Date_now env then ret VerifyCode.expired_code
         else
           markRes <- api_codes_patch env e c ;;
           match markRes with
           | NotOk t2 =>
               t2 <- res_text t2 ;;
               ret (mkResponse 500 (error_body ("Failed to mark code as used: " ++ t2)))
           | Ok _ =>
               created <- VerifyCode.provision env e
                            (js_or (match parsed event with
                                    | Some o => prop o "password"
                                    | None => JUndefined
                                    end) (JStr "")) ;;
               match created with
               | inl failure => ret failure
               | inr userId =>
                   _ <- api_profiles_upsert env
                          (mkProfile userId
                             (js_or (match parsed event with
                                     | Some o => prop o "plan"
                                     | None => JUndefined
                                     end) (JStr "basic"))
                             (Date_now env + 14 * 24 * 60 * 60 * 1000)) ;;
                   ret VerifyCode.success
               end
           end
     end)
    (fun _ => unexpected)
    (mkWorld (store w) (calls w ++ [GET_email_codes e (Some c)])).
Proof.
  intros (Hm & Hp & He & Hc & Hpw) (Hcfg & Hnet).
  unfold VerifyCode.handler. rewrite (post_method _ Hm).
  unfold claimed_pair, password_given, str_prop, normalize in *.
  unfold VerifyCode.try_block, try_catch, JSON_parse, as_string, bind, ret.
  destruct (parsed event) as [o|]; [|discriminate].
  destruct (js_or (prop o "email") (JStr "")); try discriminate.
  destruct (js_or (prop o "code") (JStr "")); try discriminate.
  injection Hp as <- <-.
  rewrite (nonempty_true _ He), (nonempty_true _ Hc).
  rewrite !(js_or_truthy _ _ Hpw), Hpw, Hcfg. simpl negb. simpl orb. cbv iota.
  unfold api_codes_lookup, fetch, log, get_store, bind, ret. rewrite Hnet.
  simpl.
  destruct (select_unused _ _ (email_codes (store w))) as [|r rest]; reflexivity.
Qed.

Lemma codes_evolve q s :
  email_codes (serve q s) = email_codes s \/
  (exists e c, email_codes (serve q s) = patch_used e c (email_codes s)) \/
  (exists r, email_codes (serve q s) = insert_row r (email_codes s)).
Proof.
  destruct q; unfold serve, invoke.
  - run_verify.
    repeat (break_match; simpl);
      first [left; reflexivity | right; left; eexists; eexists; reflexivity].
  - rewrite resend_keeps_store. left. reflexivity.
  - run_fallback.
    repeat (break_match; simpl);
      first [left; reflexivity | right; right; eexists; reflexivity].
  - rewrite feedback_keeps_store. left. reflexivity.
Qed.

Lemma mark_used_idem r : used r = true -> mark_used r = r.
Proof. destruct r; simpl; intros ->; reflexivity. Qed.

Lemma patch_used_nth e c t i :
  nth_error (patch_used e c t) i =
  option_map (fun r => if same_pair e c r then mark_used r else r) (nth_error t i).
Proof. unfold patch_used. apply nth_error_map. Qed.

(** No request ever turns a used row back into an unused one: a used row
    stays where it is, as it is. *)
Lemma used_never_reset q s i r :
  nth_error (email_codes s) i = Some r -> used r = true ->
  nth_error (email_codes (serve q s)) i = Some r.
Proof.
  intros Hi Hu.
  destruct (codes_evolve q s) as [-> | [(e & c & ->) | (r' & ->)]].
  - exact Hi.
  - rewrite patch_used_nth, Hi. simpl.
    destruct (same_pair e c r); [rewrite (mark_used_idem r Hu)|]; reflexivity.
  - unfold insert_row. rewrite nth_error_app1; [exact Hi|].
    apply nth_error_Some. congruence.
Qed.

(** ** The verifier *)

(** C1. Once a verification request for a pair (email, code) has succeeded,
    whatever requests the four functions serve afterwards, a verification
    request for the same normalised email and code that passes validation and
    whose lookup the store answers is refused with the invalid-code response
    (HTTP 400) and changes nothing; and no request ever resets a used row. *)
Theorem consumed_code_is_rejected :
  (forall q s i r,
      nth_error (email_codes s) i = Some r -> used r = true ->
      nth_error (email_codes (serve q s)) i = Some r) /\
  (forall env1 event1 s w1 e c (later : list Request) env2 event2,
      VerifyCode.handler env1 event1 (fresh s) = (VerifyCode.success, w1) ->
      claimed_pair event1 = Some (e, c) ->
      redeems event2 e c -> lookup_answered env2 ->
      VerifyCode.handler env2 event2 (fresh (serve_all later (store w1))) =
        (VerifyCode.invalid_code,
         mkWorld (serve_all later (store w1)) [GET_email_codes e (Some c)]) /\
      statusCode VerifyCode.invalid_code = 400).
Proof.
  split; [exact used_never_reset|].
  intros env1 event1 s w1 e c later env2 event2 Hok Hpair Hreq Hans.
  split; [|reflexivity].
  pose proof (verify_success_consumes _ _ _ _ _ _ Hok Hpair) as Hcons.
  apply (serve_all_keeps_consumed e c later) in Hcons.
  destruct Hcons as [Hnone _].
  rewrite (verify_reaches_lookup _ _ _ e c Hreq Hans).
  simpl store. rewrite Hnone. reflexivity.
Qed.

Lemma consumed_code_is_rejected_witness :
  let w1 := snd (VerifyCode.handler sample_env alice_redeems
                   (fresh (mkStore [alice_row] [] []))) in
  let later := [ToGenerateCodeFallback sample_env alice_asks;
                ToVerifyCode sample_env alice_redeems] in
  VerifyCode.handler sample_env alice_redeems (fresh (serve_all later (store w1))) =
    (VerifyCode.invalid_code,
     mkWorld (serve_all later (store w1))
       [GET_email_codes "a@example.com" (Some "482913")]) /\
  statusCode VerifyCode.invalid_code = 400.
Proof.
  intros w1 later.
  apply (proj2 consumed_code_is_rejected sample_env alice_redeems
           (mkStore [alice_row] [] []) w1 "a@example.com" "482913" later
           sample_env alice_redeems).
  - reflexivity.
  - reflexivity.
  - repeat split; try discriminate; reflexivity.
  - split; reflexivity.
Defined.

Lemma verify_stale_row env event s e c r rest :
  redeems event e c -> lookup_answered env ->
  select_unused e c (email_codes s) = r :: rest ->
  expires_at r < Date_now env ->
  VerifyCode.handler env event (fresh s) =
    (VerifyCode.expired_code, mkWorld s [GET_email_codes e (Some c)]).
Proof.
  intros Hreq Hans Hsel Hlt.
  rewrite (verify_reaches_lookup _ _ _ e c Hreq Hans). simpl store.
  apply Z.ltb_lt in Hlt. rewrite Hsel, Hlt. reflexivity.
Qed.

Lemma verify_no_row env event s e c :
  redeems event e c -> lookup_answered env ->
  select_unused e c (email_codes s) = [] ->
  VerifyCode.handler env event (fresh s) =
    (VerifyCode.invalid_code, mkWorld s [GET_email_codes e (Some c)]).
Proof.
  intros Hreq Hans Hsel.
  rewrite (verify_reaches_lookup _ _ _ e c Hreq Hans). simpl store.
  rewrite Hsel. reflexivity.
Qed.

(** C2, as the code has it. When the first row of the lookup answer for
    (normalised email, code, used=false) has an expiry in the past (in
    particular when rows match and all of them have lapsed), the answer is
    the expired-code response and nothing is written; when no row matches,
    it is the invalid-code response; the two are both HTTP 400 and differ in
    their bodies. *)
Theorem expired_code_is_told_apart :
  forall env event s e c,
    redeems event e c -> lookup_answered env ->
    (forall r rest,
        select_unused e c (email_codes s) = r :: rest ->
        expires_at r < Date_now env ->
        VerifyCode.handler env event (fresh s) =
          (VerifyCode.expired_code, mkWorld s [GET_email_codes e (Some c)])) /\
    (select_unused e c (email_codes s) <> [] ->
     (forall r, In r (select_unused e c (email_codes s)) ->
                expires_at r < Date_now env) ->
     VerifyCode.handler env event (fresh s) =
       (VerifyCode.expired_code, mkWorld s [GET_email_codes e (Some c)])) /\
    (select_unused e c (email_codes s) = [] ->
     VerifyCode.handler env event (fresh s) =
       (VerifyCode.invalid_code, mkWorld s [GET_email_codes e (Some c)])) /\
    statusCode VerifyCode.expired_code = 400 /\
    statusCode VerifyCode.invalid_code = 400 /\
    body VerifyCode.expired_code <> body VerifyCode.invalid_code.
Proof.
  intros env event s e c Hreq Hans.
  repeat split; try discriminate.
  - intros r rest. apply verify_stale_row; assumption.
  - intros Hsome Hall.
    destruct (select_unused e c (email_codes s)) as [|r rest] eqn:Hsel;
      [contradiction|].
    apply (verify_stale_row env event s e c r rest Hreq Hans Hsel).
    apply Hall. left. reflexivity.
  - apply verify_no_row; assumption.
Qed.

Lemma expired_code_is_told_apart_witness :
  VerifyCode.handler late_env alice_redeems (fresh (mkStore [alice_row] [] [])) =
    (VerifyCode.expired_code,
     mkWorld (mkStore [alice_row] [] [])
       [GET_email_codes "a@example.com" (Some "482913")]).
Proof.
  refine (proj1 (expired_code_is_told_apart late_env alice_redeems
                   (mkStore [alice_row] [] []) "a@example.com" "482913" _ _)
            alice_row [] _ _).
  - repeat split; try discriminate; reflexivity.
  - split; reflexivity.
  - reflexivity.
  - reflexivity.
Defined.

(** C2, as stated, fails: a matching unused row whose expiry has passed,
    listed after one that is still valid, does not make the verifier answer
    "expired"; the request goes through with 200. *)
Lemma lapsed_row_behind_live_one :
  fst (VerifyCode.handler sample_env alice_redeems
         (fresh (mkStore [alice_row; stale_twin] [] []))) = VerifyCode.success /\
  ~ any_lapsed_row_gives_expired sample_env alice_redeems
      (mkStore [alice_row; stale_twin] [] []).
Proof.
  split; [reflexivity|].
  intros H.
  specialize (H "a@example.com" "482913" stale_twin).
  assert (Hexp : fst (VerifyCode.handler sample_env alice_redeems
                        (fresh (mkStore [alice_row; stale_twin] [] []))) =
                 VerifyCode.expired_code).
  { apply H.
    - repeat split; try discriminate; reflexivity.
    - split; reflexivity.
    - right. left. reflexivity.
    - reflexivity. }
  vm_compute in Hexp. discriminate Hexp.
Qed.

(** The verifier past the expiry check never answers with the expired-code
    response. *)
Lemma fresh_row_not_expired env event s e c r rest :
  redeems event e c -> lookup_answered env ->
  select_unused e c (email_codes s) = r :: rest ->
  (expires_at r <? Date_now env) = false ->
  fst (VerifyCode.handler env event (fresh s)) <> VerifyCode.expired_code.
Proof.
  intros Hreq Hans Hsel Hge.
  rewrite (verify_reaches_lookup _ _ _ e c Hreq Hans). simpl store.
  rewrite Hsel, Hge.
  unfold try_catch, VerifyCode.provision. unfold_api.
  repeat (break_match; simpl); discriminate.
Qed.

(** C3, as the code has it. The expiry that decides between the
    expired-code response and going on is that of the first row of the lookup
    answer, in table order, whatever rows follow it. *)
Theorem first_matching_row_decides_expiry :
  forall env event s e c r rest,
    redeems event e c -> lookup_answered env ->
    select_unused e c (email_codes s) = r :: rest ->
    (fst (VerifyCode.handler env event (fresh s)) = VerifyCode.expired_code <->
     expires_at r < Date_now env).
Proof.
  intros env event s e c r rest Hreq Hans Hsel. split.
  - intros Hexp. destruct (expires_at r <? Date_now env) eqn:Hlt.
    + apply Z.ltb_lt. exact Hlt.
    + exfalso.
      exact (fresh_row_not_expired env event s e c r rest Hreq Hans Hsel Hlt Hexp).
  - intros Hlt.
    rewrite (verify_stale_row env event s e c r rest Hreq Hans Hsel Hlt).
    reflexivity.
Qed.

Lemma first_matching_row_decides_expiry_witness :
  fst (VerifyCode.handler late_env alice_redeems (fresh twice_issued)) =
    VerifyCode.expired_code <->
  expires_at alice_row < Date_now late_env.
Proof.
  apply (first_matching_row_decides_expiry late_env alice_redeems twice_issued
           "a@example.com" "482913" alice_row
           [mkCodeRow "a@example.com" "482913" 7300000 false]).
  - repeat split; try discriminate; reflexivity.
  - split; reflexivity.
  - reflexivity.
Defined.

(** C3, as stated, fails: with two matching rows the verifier answers
    "expired" on the strength of the older row although the most recent one
    is still valid. *)
Lemma most_recent_row_is_not_consulted :
  ~ most_recent_expiry_decides late_env alice_redeems twice_issued.
Proof.
  intros H.
  specialize (H "a@example.com" "482913"
                (mkCodeRow "a@example.com" "482913" 7300000 false)).
  destruct H as [H _].
  - repeat split; try discriminate; reflexivity.
  - split; reflexivity.
  - reflexivity.
  - specialize (H eq_refl). vm_compute in H. discriminate H.
Qed.

(** C10. A verification that reaches the mark-used step and whose PATCH the
    store serves leaves the table as the PATCH filtered by email and code
    alone makes it: every row with that email and code ends up used, whether
    or not it was the row whose expiry was checked and whether or not it was
    used before; every other row is untouched; no row is added or removed. *)
Theorem mark_used_is_a_plain_write :
  forall env event s r w e c,
    VerifyCode.handler env event (fresh s) = (r, w) ->
    In (PATCH_email_codes e c) (calls w) ->
    net env CodesPatch = Served ->
    claimed_pair event = Some (e, c) /\
    email_codes (store w) = patch_used e c (email_codes s) /\
    length (email_codes (store w)) = length (email_codes s) /\
    (forall i row,
        nth_error (email_codes s) i = Some row ->
        nth_error (email_codes (store w)) i =
          Some (if same_pair e c row then mark_used row else row)) /\
    (forall row,
        In row (email_codes s) -> same_pair e c row = true ->
        In (mkCodeRow (email row) (code row) (expires_at row) true)
           (email_codes (store w))).
Proof.
  intros env event s r w e c Hrun Hin Hnet.
  assert (claimed_pair event = Some (e, c) /\
          email_codes (store w) = patch_used e c (email_codes s)) as [Hp Ht].
  { assert (w = snd (VerifyCode.handler env event (fresh s))) as ->
      by (rewrite Hrun; reflexivity).
    clear Hrun. revert Hin. unfold claimed_pair, str_prop, normalize. run_verify.
    repeat (break_match; simpl); try congruence.
    all: intros Hin; try contradiction.
    all: repeat (destruct Hin as [Hin|Hin]; [try discriminate Hin|]); try contradiction.
    all: injection Hin as <- <-; split; congruence. }
  split; [exact Hp|]. split; [exact Ht|]. rewrite Ht.
  split; [apply length_map|]. split.
  - intros i row Hi. rewrite patch_used_nth, Hi. reflexivity.
  - intros row Hrow Hsame. unfold patch_used.
    apply in_map_iff. exists row. rewrite Hsame. split; [reflexivity|exact Hrow].
Qed.

Lemma mark_used_is_a_plain_write_witness :
  email_codes
    (store (snd (VerifyCode.handler sample_env alice_redeems
                   (fresh (mkStore [alice_row; stale_twin; other_row; spent_twin] [] []))))) =
  [mark_used alice_row; mark_used stale_twin; other_row; spent_twin].
Proof.
  refine (proj1 (proj2 (mark_used_is_a_plain_write sample_env alice_redeems
            (mkStore [alice_row; stale_twin; other_row; spent_twin] [] [])
            _ _ "a@example.com" "482913" _ _ _))).
  - apply surjective_pairing.
  - vm_compute. right. left. reflexivity.
  - reflexivity.
Defined.

(** ** The issuer *)

Lemma append_assoc (a b c : string) : ((a ++ b) ++ c = a ++ (b ++ c))%string.
Proof. induction a as [|x a IH]; simpl; [reflexivity|]. rewrite IH. reflexivity. Qed.

Lemma mailed_app cs ds : mailed (cs ++ ds) = (mailed cs ++ mailed ds)%list.
Proof.
  induction cs as [|c cs IH]; simpl; [reflexivity|].
  destruct c; simpl; rewrite ?IH; reflexivity.
Qed.

Lemma dispatch_keeps_store env e c w :
  store (snd (GenerateCodeFallback.dispatch env e c w)) = store w.
Proof. run_dispatch. repeat (break_match; simpl); reflexivity. Qed.

(** The mail calls of the dispatch are the fallback over the configured
    providers. *)
Lemma dispatch_mails env e c w :
  mailed (calls (snd (GenerateCodeFallback.dispatch env e c w))) =
  (mailed (calls w) ++ attempts env (configured env))%list.
Proof.
  unfold configured, when_set. run_dispatch.
  repeat (break_match; simpl; try discriminate).
  all: rewrite ?mailed_app; simpl; rewrite <- ?app_assoc, ?app_nil_r; simpl.
  all: congruence.
Qed.

(** When no attempted provider leaves its promise rejected, the dispatch
    ends with the retained note. *)
Lemma dispatch_value env e c w :
  (forall via, In via (attempts env (configured env)) -> net env (Mail via) <> Rejected) ->
  fst (GenerateCodeFallback.dispatch env e c w) =
  Val (GenerateCodeFallback.mkDelivery (retained_note env)
         (existsb (answered_ok env) (attempts env (configured env)))).
Proof.
  unfold retained_note, configured, when_set, answered_ok. run_dispatch.
  unfold GenerateCodeFallback.settle, GenerateCodeFallback.add_note,
    no_provider_note, no_sender_note.
  repeat (break_match; simpl; unfold failure_reason; rewrite_nets; simpl;
          try discriminate).
  all: intros Hrej.
  all: try solve [exfalso;
                  first [ apply (Hrej Resend); [simpl; tauto | assumption]
                        | apply (Hrej SendGrid); [simpl; tauto | assumption]
                        | apply (Hrej Mailgun); [simpl; tauto | assumption] ]].
  all: rewrite ?append_assoc; simpl; reflexivity.
Qed.

(** A provider whose promise rejects ends the dispatch with an exception. *)
Lemma dispatch_rejected env e c w :
  (exists via, In via (attempts env (configured env)) /\ net env (Mail via) = Rejected) ->
  exists err, fst (GenerateCodeFallback.dispatch env e c w) = Exn err.
Proof.
  unfold configured, when_set. run_dispatch.
  repeat (break_match; simpl; rewrite_nets; simpl; try discriminate).
  all: try (eexists; reflexivity).
  all: intros (via & Hin & Hrej); exfalso.
  all: repeat (destruct Hin as [<-|Hin]; [congruence|]); contradiction.
Qed.



Lemma insert_row_differs (r : CodeRow) t : insert_row r t <> t.
Proof.
  unfold insert_row. intros H. apply (f_equal (@length CodeRow)) in H.
  rewrite length_app in H. simpl in H. lia.
Qed.

(** The issuer once a row has been written: what is left is the dispatch. *)
Lemma fallback_after_insert env event s r w :
  GenerateCodeFallback.handler env event (fresh s) = (r, w) ->
  email_codes (store w) <> email_codes s ->
  exists e,
    requested_email event = Some e /\
    let row := mkCodeRow e (new_code env) (Date_now env + 60 * 60 * 1000) false in
    let w0 := mkWorld (mkStore (insert_row row (email_codes s)) (users s) (profiles s))
                [GET_users e; GET_email_codes e None; POST_email_codes row] in
    (r, w) =
    match GenerateCodeFallback.dispatch env e (new_code env) w0 with
    | (Val d, w') => (GenerateCodeFallback.success (new_code env)
                        (GenerateCodeFallback.note d), w')
    | (Exn _, w') => (unexpected, w')
    end.
Proof.
  unfold requested_email, str_prop, normalize.
  unfold GenerateCodeFallback.handler, try_catch, GenerateCodeFallback.try_block.
  unfold_api. intros Hrun Hne.
  repeat (break_match_in Hrun; simpl in Hrun;
          try (injection Hrun as <- <-; simpl in Hne; congruence)).
  all: eexists; split; [reflexivity|]; simpl.
  all: rewrite Heqp; congruence.
Qed.









Lemma fallback_ok_means_persisted env event s :
  statusCode (fst (GenerateCodeFallback.handler env event (fresh s))) = 200 ->
  email_codes (store (snd (GenerateCodeFallback.handler env event (fresh s)))) <>
  email_codes s.
Proof.
  run_fallback.
  repeat (break_match; simpl; try discriminate).
  all: intros _; apply insert_row_differs.
Qed.

(** C6, as stated, fails: the 200 body of a successful issuance carries the
    generated code. *)
Lemma issuer_discloses_the_code :
  let r := fst (GenerateCodeFallback.handler sample_env alice_asks (fresh empty_store)) in
  statusCode r = 200 /\
  body r = Json [("success", JBool true); ("code", JStr "482913")] /\
  ~ success_and_note_only (body r).
Proof.
  split; [reflexivity|]. split; [reflexivity|].
  intros [n Hn]. destruct n; vm_compute in Hn; discriminate Hn.
Qed.

(** C6, as the code has it. Every HTTP 200 answer of the issuer has the body
    [{success: true, code}], extended with [note] when there is one, where
    [code] is the very code of the row the request has just persisted. *)
Theorem issuer_success_body :
  forall env event s r w,
    GenerateCodeFallback.handler env event (fresh s) = (r, w) ->
    statusCode r = 200 ->
    exists e n,
      body r = Json ([("success", JBool true); ("code", JStr (new_code env))] ++
                     match n with
                     | Some t => [("note", JStr t)]
                     | None => []
                     end)%list /\
      requested_email event = Some e /\
      email_codes (store w) =
        insert_row (mkCodeRow e (new_code env) (Date_now env + 60 * 60 * 1000) false)
          (email_codes s).
Proof.
  intros env event s r w Hrun H200.
  pose proof (fallback_ok_means_persisted env event s) as Hne.
  rewrite Hrun in Hne. specialize (Hne H200).
  destruct (fallback_after_insert env event s r w Hrun Hne) as (e & He & Hrw).
  cbv zeta in Hrw.
  match type of Hrw with
  | context [GenerateCodeFallback.dispatch ?a ?b ?c ?d] =>
      pose proof (dispatch_keeps_store a b c d) as Hst;
      destruct (GenerateCodeFallback.dispatch a b c d) as [[d'|err] w']
  end.
  - injection Hrw as -> ->. simpl in Hst.
    exists e, (GenerateCodeFallback.note d'). rewrite Hst.
    split; [|split; [exact He|reflexivity]].
    destruct (GenerateCodeFallback.note d'); reflexivity.
  - injection Hrw as -> ->. discriminate H200.
Qed.

Lemma issuer_success_body_witness :
  exists e n,
    body (fst (GenerateCodeFallback.handler all_down_env alice_asks (fresh empty_store))) =
      Json ([("success", JBool true); ("code", JStr (new_code all_down_env))] ++
            match n with
            | Some t => [("note", JStr t)]
            | None => []
            end)%list /\
    requested_email alice_asks = Some e /\
    email_codes
      (store (snd (GenerateCodeFallback.handler all_down_env alice_asks (fresh empty_store)))) =
      insert_row
        (mkCodeRow e (new_code all_down_env) (Date_now all_down_env + 60 * 60 * 1000) false)
        (email_codes empty_store).
Proof.
  refine (issuer_success_body all_down_env alice_asks empty_store _ _ _ _).
  - apply surjective_pairing.
  - reflexivity.
Defined.

(** The no-cooldown revision on a request that reaches the user lookup. *)
Lemma resend_after_lookup env event s e :
  asks_code_for env event e ->
  GenerateCodeResend.try_block env event (fresh s) =
    (match users_with e (users s) with
     | _ :: _ => Val already_registered
     | [] => Exn (ReferenceError "now")
     end, mkWorld s [GET_users e]) /\
  GenerateCodeResend.handler env event (fresh s) =
    (match users_with e (users s) with
     | _ :: _ => already_registered
     | [] => unexpected
     end, mkWorld s [GET_users e]).
Proof.
  intros Hask. unfold GenerateCodeResend.handler, GenerateCodeResend.try_block.
  reach_user_lookup Hask.
  destruct (users_with _ (users s)); split; reflexivity.
Qed.

Lemma fallback_registered env event s e :
  asks_code_for env event e ->
  users_with e (users s) <> [] ->
  GenerateCodeFallback.handler env event (fresh s) =
    (already_registered, mkWorld s [GET_users e]).
Proof.
  intros Hask Hreg. revert Hreg.
  unfold GenerateCodeFallback.handler, GenerateCodeFallback.try_block.
  reach_user_lookup Hask.
  destruct (users_with _ (users s)); [contradiction|reflexivity].
Qed.

(** C8. An issuance request whose normalised email already has an account is
    answered, by either revision of the issuer, with HTTP 400 "This email is
    already registered"; the tables are left as they were and the user lookup
    is the only call made. *)
Theorem registered_email_gets_no_code :
  forall env event s e,
    asks_code_for env event e ->
    users_with e (users s) <> [] ->
    GenerateCodeResend.handler env event (fresh s) =
      (already_registered, mkWorld s [GET_users e]) /\
    GenerateCodeFallback.handler env event (fresh s) =
      (already_registered, mkWorld s [GET_users e]) /\
    statusCode already_registered = 400.
Proof.
  intros env event s e Hask Hreg.
  split; [|split; [|reflexivity]].
  - rewrite (proj2 (resend_after_lookup env event s e Hask)).
    destruct (users_with e (users s)); [contradiction|reflexivity].
  - apply fallback_registered; assumption.
Qed.

Lemma registered_email_gets_no_code_witness :
  GenerateCodeResend.handler sample_env alice_asks (fresh alice_registered) =
    (already_registered, mkWorld alice_registered [GET_users "a@example.com"]) /\
  GenerateCodeFallback.handler sample_env alice_asks (fresh alice_registered) =
    (already_registered, mkWorld alice_registered [GET_users "a@example.com"]) /\
  statusCode already_registered = 400.
Proof.
  apply (registered_email_gets_no_code sample_env alice_asks alice_registered
           "a@example.com").
  - repeat split; try discriminate; reflexivity.
  - discriminate.
Defined.

Lemma resend_never_succeeds env event s :
  statusCode (fst (GenerateCodeResend.handler env event (fresh s))) <> 200 /\
  store (snd (GenerateCodeResend.handler env event (fresh s))) = s /\
  (forall row, ~ In (POST_email_codes row)
                    (calls (snd (GenerateCodeResend.handler env event (fresh s))))) /\
  mailed (calls (snd (GenerateCodeResend.handler env event (fresh s)))) = [].
Proof.
  run_resend.
  repeat (break_match; simpl; try discriminate).
  all: repeat split; try discriminate; try reflexivity.
  all: intros row Hin; simpl in Hin.
  all: repeat (destruct Hin as [Hin|Hin]; [discriminate Hin|]); contradiction.
Qed.

(** C9. In the revision of [generate-code.js] without cooldown, a request
    that passes validation and configuration and whose user lookup finds no
    account runs into the undeclared [now]: the [try] block ends with a
    [ReferenceError], the handler answers HTTP 500 "An unexpected error
    occurred", and nothing has been persisted or mailed; on no input at all
    does that revision answer 200, write a row or send a mail. *)
Theorem undeclared_now_blocks_issuance :
  (forall env event s e,
      asks_code_for env event e ->
      users_with e (users s) = [] ->
      GenerateCodeResend.try_block env event (fresh s) =
        (Exn (ReferenceError "now"), mkWorld s [GET_users e]) /\
      GenerateCodeResend.handler env event (fresh s) =
        (unexpected, mkWorld s [GET_users e]) /\
      statusCode unexpected = 500) /\
  (forall env event s,
      statusCode (fst (GenerateCodeResend.handler env event (fresh s))) <> 200 /\
      store (snd (GenerateCodeResend.handler env event (fresh s))) = s /\
      (forall row, ~ In (POST_email_codes row)
                        (calls (snd (GenerateCodeResend.handler env event (fresh s))))) /\
      mailed (calls (snd (GenerateCodeResend.handler env event (fresh s)))) = []).
Proof.
  split.
  - intros env event s e Hask Hnone.
    destruct (resend_after_lookup env event s e Hask) as [Hblock Hrun].
    rewrite Hnone in Hblock, Hrun. repeat split; assumption.
  - exact resend_never_succeeds.
Qed.

Lemma undeclared_now_blocks_issuance_witness :
  GenerateCodeResend.try_block sample_env alice_asks (fresh empty_store) =
    (Exn (ReferenceError "now"), mkWorld empty_store [GET_users "a@example.com"]) /\
  GenerateCodeResend.handler sample_env alice_asks (fresh empty_store) =
    (unexpected, mkWorld empty_store [GET_users "a@example.com"]) /\
  statusCode unexpected = 500.
Proof.
  apply (proj1 undeclared_now_blocks_issuance sample_env alice_asks empty_store
           "a@example.com").
  - repeat split; try discriminate; reflexivity.
  - reflexivity.
Defined.

(** C5 at a store that holds a live, unused code for an email without an
    account: the revision without cooldown stops at the undeclared [now] and
    the revision with the fallback answers with the cooldown refusal; neither
    writes a row. *)
Example reissue_while_code_is_live :
  let s := mkStore [alice_row] [] [] in
  GenerateCodeResend.handler sample_env alice_asks (fresh s) =
    (unexpected, mkWorld s [GET_users "a@example.com"]) /\
  GenerateCodeFallback.handler sample_env alice_asks (fresh s) =
    (GenerateCodeFallback.cooldown,
     mkWorld s [GET_users "a@example.com"; GET_email_codes "a@example.com" None]).
Proof. split; reflexivity. Qed.

(** ** The feedback relay *)





(** ** More on the verifier *)

(** X1. The verifier turns a request away before any outbound call: a
    method other than POST gets 405; a missing or blank email, a missing or
    blank code or a missing password gets 400; a missing Supabase URL or key
    gets 500.  In each case the tables and the call log are left as they
    were. *)
Theorem verify_turns_away_before_any_call :
  forall env event w,
    (httpMethod event <> "POST" ->
     VerifyCode.handler env event w = (method_not_allowed, w)) /\
    (forall e c,
        httpMethod event = "POST" -> claimed_pair event = Some (e, c) ->
        e = "" \/ c = "" \/ password_given event = false ->
        VerifyCode.handler env event w = (fields_required, w)) /\
    (forall e c,
        redeems event e c -> supabase_configured env = false ->
        VerifyCode.handler env event w = (supabase_missing, w)).
Proof.
  intros env event w. split; [|split].
  - intros Hm. unfold VerifyCode.handler.
    destruct (String.eqb_spec (httpMethod event) "POST"); [contradiction|reflexivity].
  - intros e c Hm Hp Hblank. unfold VerifyCode.handler. rewrite (post_method _ Hm).
    unfold claimed_pair, password_given, str_prop, normalize in *.
    unfold VerifyCode.try_block, try_catch, JSON_parse, as_string, bind, ret.
    destruct (parsed event) as [o|]; [|discriminate].
    destruct (js_or (prop o "email") (JStr "")); try discriminate.
    destruct (js_or (prop o "code") (JStr "")); try discriminate.
    injection Hp as <- <-.
    destruct Hblank as [-> | [-> | Hpw]].
    + reflexivity.
    + simpl. rewrite orb_true_r. reflexivity.
    + unfold js_or. rewrite Hpw. simpl. rewrite !orb_true_r. reflexivity.
  - intros e c (Hm & Hp & He & Hc & Hpw) Hcfg.
    unfold VerifyCode.handler. rewrite (post_method _ Hm).
    unfold claimed_pair, password_given, str_prop, normalize in *.
    unfold VerifyCode.try_block, try_catch, JSON_parse, as_string, bind, ret.
    destruct (parsed event) as [o|]; [|discriminate].
    destruct (js_or (prop o "email") (JStr "")); try discriminate.
    destruct (js_or (prop o "code") (JStr "")); try discriminate.
    injection Hp as <- <-.
    rewrite (nonempty_true _ He), (nonempty_true _ Hc).
    rewrite !(js_or_truthy _ _ Hpw), Hpw, Hcfg. reflexivity.
Qed.

Lemma verify_turns_away_before_any_call_witness :
  VerifyCode.handler sample_env
    (post [("email", JStr "   "); ("code", JStr "482913"); ("password", JStr "x")])
    (fresh (mkStore [alice_row] [] [])) =
  (fields_required, fresh (mkStore [alice_row] [] [])).
Proof.
  refine (proj1 (proj2 (verify_turns_away_before_any_call sample_env _ _))
            "" "482913" _ _ _).
  - reflexivity.
  - reflexivity.
  - left. reflexivity.
Defined.

(** ** Normalisation *)

Lemma lower_char_idem c : lower_char (lower_char c) = lower_char c.
Proof. destruct c as [[] [] [] [] [] [] [] []]; reflexivity. Qed.

Lemma is_space_lower_char c : is_space (lower_char c) = is_space c.
Proof. destruct c as [[] [] [] [] [] [] [] []]; reflexivity. Qed.

Lemma toLowerCase_idem s : toLowerCase (toLowerCase s) = toLowerCase s.
Proof.
  induction s as [|c s IH]; simpl; [reflexivity|].
  rewrite lower_char_idem, IH. reflexivity.
Qed.

Lemma toLowerCase_empty s : (toLowerCase s =? "")%string = (s =? "")%string.
Proof. destruct s; reflexivity. Qed.

Lemma toLowerCase_trimStart s : toLowerCase (trimStart s) = trimStart (toLowerCase s).
Proof.
  induction s as [|c s IH]; simpl; [reflexivity|].
  rewrite is_space_lower_char. destruct (is_space c); [exact IH|reflexivity].
Qed.

Lemma toLowerCase_trimEnd s : toLowerCase (trimEnd s) = trimEnd (toLowerCase s).
Proof.
  induction s as [|c s IH]; simpl; [reflexivity|].
  rewrite is_space_lower_char, <- IH, toLowerCase_empty.
  destruct (is_space c && (trimEnd s =? "")%string); reflexivity.
Qed.

Lemma toLowerCase_trim s : toLowerCase (trim s) = trim (toLowerCase s).
Proof. unfold trim. rewrite toLowerCase_trimEnd, toLowerCase_trimStart. reflexivity. Qed.

Lemma trimEnd_idem s : trimEnd (trimEnd s) = trimEnd s.
Proof.
  induction s as [|c s IH]; simpl; [reflexivity|].
  destruct (is_space c && (trimEnd s =? "")%string) eqn:Hc; simpl; [reflexivity|].
  rewrite IH, Hc. reflexivity.
Qed.

Lemma trimStart_clean s : clean_start (trimStart s) = true.
Proof.
  induction s as [|c s IH]; simpl; [reflexivity|].
  destruct (is_space c) eqn:Hc; [exact IH|]. simpl. rewrite Hc. reflexivity.
Qed.

Lemma trimEnd_keeps_clean s : clean_start s = true -> clean_start (trimEnd s) = true.
Proof.
  destruct s as [|c s]; simpl; [reflexivity|].
  intros Hc. apply negb_true_iff in Hc. rewrite Hc. simpl. rewrite Hc. reflexivity.
Qed.

Lemma trimStart_of_clean s : clean_start s = true -> trimStart s = s.
Proof.
  destruct s as [|c s]; simpl; [reflexivity|].
  intros Hc. apply negb_true_iff in Hc. rewrite Hc. reflexivity.
Qed.

Lemma trim_idem s : trim (trim s) = trim s.
Proof.
  unfold trim.
  rewrite (trimStart_of_clean (trimEnd (trimStart s))).
  - apply trimEnd_idem.
  - apply trimEnd_keeps_clean, trimStart_clean.
Qed.

Lemma normalize_idem e : normalize (normalize e) = normalize e.
Proof.
  unfold normalize. rewrite toLowerCase_trim, toLowerCase_idem. apply trim_idem.
Qed.

(** The verifier reads a request only through its method, its normalised
    email, its trimmed code, its password and its plan. *)
Lemma verify_reads_normalised env event1 event2 w e c :
  httpMethod event1 = httpMethod event2 ->
  claimed_pair event1 = Some (e, c) -> claimed_pair event2 = Some (e, c) ->
  password_of event1 = password_of event2 ->
  plan_of event1 = plan_of event2 ->
  VerifyCode.handler env event1 w = VerifyCode.handler env event2 w.
Proof.
  unfold claimed_pair, password_of, plan_of, str_prop, normalize.
  intros Hm H1 H2 Hpw Hplan.
  unfold VerifyCode.handler. rewrite Hm.
  destruct (negb (httpMethod event2 =? "POST")%string); [reflexivity|].
  unfold VerifyCode.try_block, try_catch, JSON_parse, as_string, bind, ret.
  destruct (parsed event1) as [o1|]; [|discriminate].
  destruct (parsed event2) as [o2|]; [|discriminate].
  destruct (js_or (prop o1 "email") (JStr "")); try discriminate.
  destruct (js_or (prop o1 "code") (JStr "")); try discriminate.
  destruct (js_or (prop o2 "email") (JStr "")); try discriminate.
  destruct (js_or (prop o2 "code") (JStr "")); try discriminate.
  injection H1 as <- <-. injection H2 as -> ->.
  rewrite Hpw, Hplan. reflexivity.
Qed.

(** X2. Normalising an email twice is the same as normalising it once, and
    the verifier treats alike any two requests with the same method,
    password and plan whose emails agree up to letter case and surrounding
    white space and whose codes agree up to surrounding white space. *)
Theorem verify_ignores_case_and_padding :
  (forall e, normalize (normalize e) = normalize e) /\
  (forall env event1 event2 w e c,
      httpMethod event1 = httpMethod event2 ->
      claimed_pair event1 = Some (e, c) -> claimed_pair event2 = Some (e, c) ->
      password_of event1 = password_of event2 ->
      plan_of event1 = plan_of event2 ->
      VerifyCode.handler env event1 w = VerifyCode.handler env event2 w).
Proof. split; [exact normalize_idem|exact verify_reads_normalised]. Qed.

Lemma verify_ignores_case_and_padding_witness :
  VerifyCode.handler sample_env alice_redeems (fresh (mkStore [alice_row] [] [])) =
  VerifyCode.handler sample_env
    (post [("plan", JStr "pro"); ("password", JStr "x");
           ("code", JStr " 482913"); ("email", JStr "  a@EXAMPLE.com")])
    (fresh (mkStore [alice_row] [] [])).
Proof.
  apply (proj2 verify_ignores_case_and_padding sample_env alice_redeems _ _
           "a@example.com" "482913"); reflexivity.
Defined.

(** ** The verifier past the expiry check *)

Ltac run_provision :=
  unfold try_catch, VerifyCode.provision; unfold_api.

Lemma not_expired r env : Date_now env <= expires_at r -> (expires_at r <? Date_now env) = false.
Proof. intros H. apply Z.ltb_ge. exact H. Qed.

Lemma verify_new_account_run env event s e c r rest :
  redeems event e c -> lookup_answered env ->
  net env CodesPatch = Served -> net env UsersCreate = Served ->
  select_unused e c (email_codes s) = r :: rest ->
  Date_now env <= expires_at r ->
  users_with e (users s) = [] ->
  VerifyCode.handler env event (fresh s) =
    match net env ProfilesUpsert with
    | Served =>
        (VerifyCode.success,
         mkWorld
           (mkStore (patch_used e c (email_codes s))
              (users s ++ [mkUser (length (users s)) e])
              (upsert_profile
                 (mkProfile (length (users s)) (plan_of event)
                    (Date_now env + trial_length))
                 (profiles s)))
           [GET_email_codes e (Some c); PATCH_email_codes e c;
            POST_users e (password_of event);
            POST_profiles (mkProfile (length (users s)) (plan_of event)
                             (Date_now env + trial_length))])
    | Refused _ =>
        (VerifyCode.success,
         mkWorld
           (mkStore (patch_used e c (email_codes s))
              (users s ++ [mkUser (length (users s)) e]) (profiles s))
           [GET_email_codes e (Some c); PATCH_email_codes e c;
            POST_users e (password_of event);
            POST_profiles (mkProfile (length (users s)) (plan_of event)
                             (Date_now env + trial_length))])
    | Rejected =>
        (unexpected,
         mkWorld
           (mkStore (patch_used e c (email_codes s))
              (users s ++ [mkUser (length (users s)) e]) (profiles s))
           [GET_email_codes e (Some c); PATCH_email_codes e c;
            POST_users e (password_of event);
            POST_profiles (mkProfile (length (users s)) (plan_of event)
                             (Date_now env + trial_length))])
    end.
Proof.
  intros Hreq Hans Hpatch Hcreate Hsel Hlive Hnew.
  rewrite (verify_reaches_lookup _ _ _ e c Hreq Hans). simpl store.
  rewrite Hsel, (not_expired _ _ Hlive).
  run_provision. rewrite Hpatch. simpl. rewrite Hcreate. simpl. rewrite Hnew. simpl.
  destruct (net env ProfilesUpsert); reflexivity.
Qed.

(** X3. A verification whose lookup answer begins with a row that has not
    expired, for an email without an account and with the store serving
    every call, answers 200, marks the rows
    of the pair used, creates exactly one account for the normalised email
    and upserts one profile carrying the requested plan ("basic" when none is
    given) and a trial end fourteen days after the time of verification. *)
Theorem verify_creates_account_and_profile :
  forall env event s e c r rest,
    redeems event e c -> lookup_answered env ->
    net env CodesPatch = Served -> net env UsersCreate = Served ->
    net env ProfilesUpsert = Served ->
    select_unused e c (email_codes s) = r :: rest ->
    Date_now env <= expires_at r ->
    users_with e (users s) = [] ->
    VerifyCode.handler env event (fresh s) =
      (VerifyCode.success,
       mkWorld
         (mkStore (patch_used e c (email_codes s))
            (users s ++ [mkUser (length (users s)) e])
            (upsert_profile
               (mkProfile (length (users s)) (plan_of event)
                  (Date_now env + trial_length))
               (profiles s)))
         [GET_email_codes e (Some c); PATCH_email_codes e c;
          POST_users e (password_of event);
          POST_profiles (mkProfile (length (users s)) (plan_of event)
                           (Date_now env + trial_length))]) /\
    (forall o, parsed event = Some o -> truthy (prop o "plan") = false ->
               plan_of event = JStr "basic") /\
    trial_length = 14 * 24 * 60 * 60 * 1000.
Proof.
  intros env event s e c r rest Hreq Hans Hpatch Hcreate Hprof Hsel Hlive Hnew.
  split; [|split].
  - rewrite (verify_new_account_run env event s e c r rest); try assumption.
    rewrite Hprof. reflexivity.
  - intros o Ho Hplan. unfold plan_of, js_or. rewrite Ho, Hplan. reflexivity.
  - reflexivity.
Qed.

Lemma verify_creates_account_and_profile_witness :
  VerifyCode.handler sample_env alice_redeems (fresh (mkStore [alice_row] [] [])) =
    (VerifyCode.success,
     mkWorld
       (mkStore [mark_used alice_row] [mkUser 0 "a@example.com"]
          [mkProfile 0 (JStr "pro") 1209601000])
       [GET_email_codes "a@example.com" (Some "482913");
        PATCH_email_codes "a@example.com" "482913";
        POST_users "a@example.com" (JStr "x");
        POST_profiles (mkProfile 0 (JStr "pro") 1209601000)]).
Proof.
  refine (proj1 (verify_creates_account_and_profile sample_env alice_redeems
                   (mkStore [alice_row] [] []) "a@example.com" "482913" alice_row []
                   _ _ _ _ _ _ _ _)).
  - repeat split; try discriminate; reflexivity.
  - split; reflexivity.
  - reflexivity.
  - reflexivity.
  - reflexivity.
  - reflexivity.
  - discriminate.
  - reflexivity.
Defined.

Lemma verify_existing_account_run env event s e c r rest u us :
  redeems event e c -> lookup_answered env ->
  net env CodesPatch = Served -> net env UsersCreate <> Rejected ->
  net env UsersLookup = Served -> net env ProfilesUpsert = Served ->
  select_unused e c (email_codes s) = r :: rest ->
  Date_now env <= expires_at r ->
  users_with e (users s) = u :: us ->
  VerifyCode.handler env event (fresh s) =
    (VerifyCode.success,
     mkWorld
       (mkStore (patch_used e c (email_codes s)) (users s)
          (upsert_profile
             (mkProfile (user_id u) (plan_of event) (Date_now env + trial_length))
             (profiles s)))
       [GET_email_codes e (Some c); PATCH_email_codes e c;
        POST_users e (password_of event); GET_users e;
        POST_profiles (mkProfile (user_id u) (plan_of event)
                         (Date_now env + trial_length))]).
Proof.
  intros Hreq Hans Hpatch Hcreate Hlist Hprof Hsel Hlive Hold.
  rewrite (verify_reaches_lookup _ _ _ e c Hreq Hans). simpl store.
  rewrite Hsel, (not_expired _ _ Hlive).
  run_provision. rewrite Hpatch. simpl.
  destruct (net env UsersCreate) eqn:Hc; [| |contradiction]; simpl;
    rewrite ?Hold; simpl; rewrite Hlist; simpl; rewrite Hold; simpl;
    rewrite Hprof; reflexivity.
Qed.

(** X4. Provisioning is idempotent: when the email already has an account,
    a verification with a live code still answers 200; no second account is
    created, the id of the existing account is looked up and the profile
    upserted is that account's. *)
Theorem verify_reuses_existing_account :
  forall env event s e c r rest u us,
    redeems event e c -> lookup_answered env ->
    net env CodesPatch = Served -> net env UsersCreate <> Rejected ->
    net env UsersLookup = Served -> net env ProfilesUpsert = Served ->
    select_unused e c (email_codes s) = r :: rest ->
    Date_now env <= expires_at r ->
    users_with e (users s) = u :: us ->
    fst (VerifyCode.handler env event (fresh s)) = VerifyCode.success /\
    users (store (snd (VerifyCode.handler env event (fresh s)))) = users s /\
    profiles (store (snd (VerifyCode.handler env event (fresh s)))) =
      upsert_profile
        (mkProfile (user_id u) (plan_of event) (Date_now env + trial_length))
        (profiles s) /\
    calls (snd (VerifyCode.handler env event (fresh s))) =
      [GET_email_codes e (Some c); PATCH_email_codes e c;
       POST_users e (password_of event); GET_users e;
       POST_profiles (mkProfile (user_id u) (plan_of event)
                        (Date_now env + trial_length))].
Proof.
  intros env event s e c r rest u us Hreq Hans Hpatch Hcreate Hlist Hprof Hsel Hlive Hold.
  rewrite (verify_existing_account_run env event s e c r rest u us); try assumption.
  repeat split.
Qed.

Lemma verify_reuses_existing_account_witness :
  fst (VerifyCode.handler sample_env alice_redeems (fresh alice_known)) =
    VerifyCode.success /\
  users (store (snd (VerifyCode.handler sample_env alice_redeems (fresh alice_known)))) =
    users alice_known /\
  profiles (store (snd (VerifyCode.handler sample_env alice_redeems (fresh alice_known)))) =
    [mkProfile 8 (JStr "pro") 1209601000].
Proof.
  destruct (verify_reuses_existing_account sample_env alice_redeems alice_known
              "a@example.com" "482913" alice_row [] (mkUser 8 "a@example.com") [])
    as (H1 & H2 & H3 & _).
  - repeat split; try discriminate; reflexivity.
  - split; reflexivity.
  - reflexivity.
  - discriminate.
  - reflexivity.
  - reflexivity.
  - reflexivity.
  - discriminate.
  - reflexivity.
  - split; [exact H1|]. split; [exact H2|exact H3].
Defined.

Lemma verify_codes_shape env event s :
  email_codes (store (snd (VerifyCode.handler env event (fresh s)))) = email_codes s \/
  exists e c,
    email_codes (store (snd (VerifyCode.handler env event (fresh s)))) =
      patch_used e c (email_codes s).
Proof.
  run_verify.
  repeat (break_match; simpl);
    first [left; reflexivity | right; eexists; eexists; reflexivity].
Qed.

(** A spent pair stays spent while no new code is issued. *)
Lemma spent_stays_spent e c later :
  forall s,
    Forall issues_nothing later ->
    select_unused e c (email_codes s) = [] ->
    select_unused e c (email_codes (serve_all later s)) = [].
Proof.
  unfold serve_all.
  induction later as [|q later IH]; simpl; intros s Hlater Hspent; [exact Hspent|].
  inversion Hlater as [|q' l' Hq Hrest]; subst.
  apply IH; [exact Hrest|].
  destruct q as [env event|env event|env event|env event]; unfold serve, invoke.
  - destruct (verify_codes_shape env event s) as [-> | (e' & c' & ->)];
      [exact Hspent|apply select_unused_patch_nil; exact Hspent].
  - rewrite resend_keeps_store. exact Hspent.
  - destruct Hq.
  - rewrite feedback_keeps_store. exact Hspent.
Qed.

(** What a served PATCH leaves behind. *)
Lemma verify_patch_effect env event s e c :
  In (PATCH_email_codes e c) (calls (snd (VerifyCode.handler env event (fresh s)))) ->
  net env CodesPatch = Served ->
  email_codes (store (snd (VerifyCode.handler env event (fresh s)))) =
    patch_used e c (email_codes s).
Proof.
  intros Hin Hnet. revert Hin. run_verify.
  repeat (break_match; simpl); try congruence.
  all: intros Hin; try contradiction.
  all: repeat (destruct Hin as [Hin|Hin]; [try discriminate Hin|]); try contradiction.
  all: injection Hin as <- <-; congruence.
Qed.

(** X5. Nothing is rolled back: once the mark-used PATCH of a verification
    has been served, whatever that verification goes on to answer (account
    creation refused, profile call failing, ...), the pair is spent: as long
    as the issuer with the fallback has not been asked for a new code, that
    is after any number of requests to the verifier, to the feedback relay
    and to the issuer without cooldown, a well-formed verification of the
    same pair is refused with the invalid-code response. *)
Theorem verify_spends_code_before_provisioning :
  forall env event s e c (later : list Request) env2 event2,
    In (PATCH_email_codes e c) (calls (snd (VerifyCode.handler env event (fresh s)))) ->
    net env CodesPatch = Served ->
    Forall issues_nothing later ->
    redeems event2 e c -> lookup_answered env2 ->
    fst (VerifyCode.handler env2 event2
           (fresh (serve_all later
                     (store (snd (VerifyCode.handler env event (fresh s))))))) =
      VerifyCode.invalid_code.
Proof.
  intros env event s e c later env2 event2 Hin Hnet Hlater Hreq Hans.
  rewrite (verify_no_row env2 event2 _ e c Hreq Hans); [reflexivity|].
  apply spent_stays_spent; [exact Hlater|].
  rewrite (verify_patch_effect env event s e c Hin Hnet).
  apply select_unused_own_patch.
Qed.

Lemma verify_spends_code_before_provisioning_witness :
  fst (VerifyCode.handler signup_closed_env alice_redeems
         (fresh (mkStore [alice_row] [] []))) =
    mkResponse 400 (error_body "Failed to create user: Signups not allowed") /\
  fst (VerifyCode.handler sample_env alice_redeems
         (fresh (serve_all [ToVerifyCode sample_env alice_redeems;
                            ToFeedback sample_env feedback_event]
                   (store (snd (VerifyCode.handler signup_closed_env alice_redeems
                                  (fresh (mkStore [alice_row] [] [])))))))) =
    VerifyCode.invalid_code.
Proof.
  split; [reflexivity|].
  apply (verify_spends_code_before_provisioning signup_closed_env alice_redeems
           (mkStore [alice_row] [] []) "a@example.com" "482913"
           [ToVerifyCode sample_env alice_redeems; ToFeedback sample_env feedback_event]
           sample_env alice_redeems).
  - vm_compute. right. left. reflexivity.
  - reflexivity.
  - repeat constructor.
  - repeat split; try discriminate; reflexivity.
  - split; reflexivity.
Defined.

Lemma upsert_profile_length p t :
  (length t <= length (upsert_profile p t) <= S (length t))%nat.
Proof.
  induction t as [|q t IH]; simpl; [lia|].
  destruct (profile_id q =? profile_id p)%nat; simpl; lia.
Qed.

Lemma verify_tables_shape env event s :
  let s' := store (snd (VerifyCode.handler env event (fresh s))) in
  (email_codes s' = email_codes s \/
   exists e c, email_codes s' = patch_used e c (email_codes s)) /\
  (users s' = users s \/ exists u, users s' = (users s ++ [u])%list) /\
  (profiles s' = profiles s \/ exists p, profiles s' = upsert_profile p (profiles s)).
Proof.
  run_verify.
  repeat (break_match; simpl).
  all: repeat split;
    first [left; reflexivity | right; eexists; reflexivity
          | right; eexists; eexists; reflexivity].
Qed.

Lemma same_identity_refl r : same_identity r r.
Proof. repeat split. auto. Qed.

Lemma same_identity_patch e c r :
  same_identity r (if same_pair e c r then mark_used r else r).
Proof. destruct (same_pair e c r); repeat split; auto. Qed.

(** X6. Whatever the request and whatever the store answers, the verifier
    never adds or removes a code row and never changes a row's email, code
    or expiry or clears its used flag; it creates at most one account and
    removes none; it adds at most one profile and removes none. *)
Theorem verify_only_marks_rows :
  forall env event s,
    let s' := store (snd (VerifyCode.handler env event (fresh s))) in
    length (email_codes s') = length (email_codes s) /\
    (forall i r, nth_error (email_codes s) i = Some r ->
                 exists r', nth_error (email_codes s') i = Some r' /\
                            same_identity r r') /\
    (exists added, users s' = (users s ++ added)%list /\ (length added <= 1)%nat) /\
    (length (profiles s) <= length (profiles s') <= S (length (profiles s)))%nat.
Proof.
  intros env event s s'.
  destruct (verify_tables_shape env event s) as (Hc & Hu & Hp).
  fold s' in Hc, Hu, Hp.
  split; [|split; [|split]].
  - destruct Hc as [-> | (e & c & ->)]; [reflexivity|]. apply length_map.
  - intros i r Hi. destruct Hc as [-> | (e & c & ->)].
    + exists r. split; [exact Hi|apply same_identity_refl].
    + rewrite patch_used_nth, Hi. simpl. eexists. split; [reflexivity|].
      apply same_identity_patch.
  - destruct Hu as [-> | (u & ->)].
    + exists []. rewrite app_nil_r. split; [reflexivity|simpl; lia].
    + exists [u]. split; [reflexivity|simpl; lia].
  - destruct Hp as [-> | (p & ->)]; [lia|]. apply upsert_profile_length.
Qed.

(** X7. The answer of the profile upsert is not looked at: when the store
    refuses it, the verifier still answers 200 although no profile has been
    written; when that call never completes, the answer is the generic 500
    although the code has been spent and the account created. *)
Theorem verify_ignores_profile_refusal :
  forall env event s e c r rest,
    redeems event e c -> lookup_answered env ->
    net env CodesPatch = Served -> net env UsersCreate = Served ->
    select_unused e c (email_codes s) = r :: rest ->
    Date_now env <= expires_at r ->
    users_with e (users s) = [] ->
    net env ProfilesUpsert <> Served ->
    fst (VerifyCode.handler env event (fresh s)) =
      match net env ProfilesUpsert with
      | Rejected => unexpected
      | _ => VerifyCode.success
      end /\
    store (snd (VerifyCode.handler env event (fresh s))) =
      mkStore (patch_used e c (email_codes s))
        (users s ++ [mkUser (length (users s)) e]) (profiles s).
Proof.
  intros env event s e c r rest Hreq Hans Hpatch Hcreate Hsel Hlive Hnew Hprof.
  rewrite (verify_new_account_run env event s e c r rest); try assumption.
  destruct (net env ProfilesUpsert); [contradiction| |]; split; reflexivity.
Qed.

Lemma verify_ignores_profile_refusal_witness :
  fst (VerifyCode.handler profiles_down_env alice_redeems
         (fresh (mkStore [alice_row] [] []))) = VerifyCode.success /\
  store (snd (VerifyCode.handler profiles_down_env alice_redeems
                (fresh (mkStore [alice_row] [] [])))) =
    mkStore [mark_used alice_row] [mkUser 0 "a@example.com"] [].
Proof.
  apply (verify_ignores_profile_refusal profiles_down_env alice_redeems
           (mkStore [alice_row] [] []) "a@example.com" "482913" alice_row []).
  - repeat split; try discriminate; reflexivity.
  - split; reflexivity.
  - reflexivity.
  - reflexivity.
  - reflexivity.
  - discriminate.
  - reflexivity.
  - discriminate.
Defined.

(** ** More on the issuer *)

Lemma cooldown_test e now t :
  existsb (fun row => negb (used row) && (expires_at row >? now))
    (select_unused_email e t) = true <->
  exists r, In r t /\ live_for e now r.
Proof.
  unfold select_unused_email, live_for. rewrite existsb_exists. split.
  - intros (r & Hin & Hr). apply filter_In in Hin. destruct Hin as [Hin Hf].
    apply andb_true_iff in Hf. destruct Hf as [He Hu].
    apply andb_true_iff in Hr. destruct Hr as [_ Hlt].
    exists r. split; [exact Hin|]. split; [apply String.eqb_eq; exact He|].
    split; [apply negb_true_iff; exact Hu|]. apply Z.gtb_lt in Hlt. exact Hlt.
  - intros (r & Hin & He & Hu & Hlt). exists r. split.
    + apply filter_In. split; [exact Hin|].
      rewrite Hu. apply andb_true_iff. split; [apply String.eqb_eq; exact He|reflexivity].
    + rewrite Hu. simpl. apply Z.gtb_lt. exact Hlt.
Qed.

(** The issuer with cooldown on a request that reaches the code lookup. *)
Lemma fallback_after_lookups env event s e :
  asks_code_for env event e ->
  users_with e (users s) = [] ->
  net env CodesLookup = Served ->
  GenerateCodeFallback.handler env event (fresh s) =
    if existsb (fun row => negb (used row) && (expires_at row >? Date_now env))
         (select_unused_email e (email_codes s))
    then (GenerateCodeFallback.cooldown,
          mkWorld s [GET_users e; GET_email_codes e None])
    else
      try_catch
        (insertRes <- api_codes_insert env (issued_row env e) ;;
         match insertRes with
         | NotOk text =>
             text <- res_text text ;;
             ret (save_failed text)
         | Ok _ =>
             d <- GenerateCodeFallback.dispatch env e (new_code env) ;;
             ret (GenerateCodeFallback.success (new_code env)
                    (GenerateCodeFallback.note d))
         end)
        (fun _ => unexpected)
        (mkWorld s [GET_users e; GET_email_codes e None]).
Proof.
  intros Hask Hnew Hcodes. revert Hnew.
  unfold GenerateCodeFallback.handler, GenerateCodeFallback.try_block.
  reach_user_lookup Hask.
  intros ->.
  unfold api_codes_lookup, fetch, log, get_store, bind, ret. rewrite Hcodes. simpl.
  destruct (existsb _ (select_unused_email _ (email_codes s))); reflexivity.
Qed.

(** X8. The revision with cooldown refuses to issue while the email has an
    unused code that expires after the current time: the answer is 400,
    nothing is written and no mail is sent.  When every unused code of the
    email has an expiry at or before the current time and the insert is
    served, exactly one row is appended: the normalised email, the new code,
    an expiry one hour ahead, not used. *)
Theorem cooldown_blocks_while_code_is_live :
  forall env event s e,
    asks_code_for env event e ->
    users_with e (users s) = [] ->
    net env CodesLookup = Served ->
    ((exists r, In r (email_codes s) /\ live_for e (Date_now env) r) ->
     GenerateCodeFallback.handler env event (fresh s) =
       (GenerateCodeFallback.cooldown,
        mkWorld s [GET_users e; GET_email_codes e None])) /\
    ((forall r, In r (email_codes s) -> email r = e -> used r = false ->
                expires_at r <= Date_now env) ->
     net env CodesInsert = Served ->
     store (snd (GenerateCodeFallback.handler env event (fresh s))) =
       mkStore (email_codes s ++ [mkCodeRow e (new_code env)
                                    (Date_now env + 3600000) false])
               (users s) (profiles s)).
Proof.
  intros env event s e Hask Hnew Hcodes.
  rewrite (fallback_after_lookups env event s e Hask Hnew Hcodes).
  split.
  - intros Hlive. apply cooldown_test in Hlive. rewrite Hlive. reflexivity.
  - intros Hnone Hins.
    destruct (existsb _ (select_unused_email e (email_codes s))) eqn:Hex.
    + apply cooldown_test in Hex. destruct Hex as (r & Hin & He & Hu & Hlt).
      specialize (Hnone r Hin He Hu). lia.
    + unfold try_catch, api_codes_insert, fetch, log, get_store, put_store, bind, ret.
      rewrite Hins. simpl.
      match goal with
      | |- context [GenerateCodeFallback.dispatch ?a ?b ?c ?d] =>
          pose proof (dispatch_keeps_store a b c d) as Hst;
          destruct (GenerateCodeFallback.dispatch a b c d) as [[d'|err] w']
      end; simpl in Hst |- *; rewrite Hst; reflexivity.
Qed.

Lemma cooldown_blocks_while_code_is_live_witness :
  GenerateCodeFallback.handler sample_env alice_asks (fresh (mkStore [alice_row] [] [])) =
    (GenerateCodeFallback.cooldown,
     mkWorld (mkStore [alice_row] [] [])
       [GET_users "a@example.com"; GET_email_codes "a@example.com" None]).
Proof.
  refine (proj1 (cooldown_blocks_while_code_is_live sample_env alice_asks
                   (mkStore [alice_row] [] []) "a@example.com" _ _ _) _).
  - repeat split; try discriminate; reflexivity.
  - reflexivity.
  - reflexivity.
  - exists alice_row. split; [left; reflexivity|].
    repeat split.
Defined.

(** X10. When the store refuses the insert, the issuer answers 500 with the
    store's text; the tables are unchanged and no provider is contacted. *)
Theorem refused_insert_sends_no_mail :
  forall env event s e t,
    asks_code_for env event e ->
    users_with e (users s) = [] ->
    net env CodesLookup = Served ->
    (forall r, In r (email_codes s) -> ~ live_for e (Date_now env) r) ->
    net env CodesInsert = Refused (Some t) ->
    GenerateCodeFallback.handler env event (fresh s) =
      (save_failed t,
       mkWorld s [GET_users e; GET_email_codes e None;
                  POST_email_codes (issued_row env e)]) /\
    mailed (calls (snd (GenerateCodeFallback.handler env event (fresh s)))) = [].
Proof.
  intros env event s e t Hask Hnew Hcodes Hnone Hins.
  rewrite (fallback_after_lookups env event s e Hask Hnew Hcodes).
  destruct (existsb _ (select_unused_email e (email_codes s))) eqn:Hex.
  - apply cooldown_test in Hex. destruct Hex as (r & Hin & Hlive).
    destruct (Hnone r Hin Hlive).
  - unfold try_catch, api_codes_insert, fetch, log, get_store, put_store, bind, ret,
      res_text.
    rewrite Hins. simpl. split; reflexivity.
Qed.

Lemma refused_insert_sends_no_mail_witness :
  GenerateCodeFallback.handler codes_table_down_env alice_asks (fresh empty_store) =
    (save_failed "permission denied",
     mkWorld empty_store
       [GET_users "a@example.com"; GET_email_codes "a@example.com" None;
        POST_email_codes (issued_row codes_table_down_env "a@example.com")]) /\
  mailed (calls (snd (GenerateCodeFallback.handler codes_table_down_env alice_asks
                        (fresh empty_store)))) = [].
Proof.
  apply (refused_insert_sends_no_mail codes_table_down_env alice_asks empty_store
           "a@example.com" "permission denied").
  - repeat split; try discriminate; reflexivity.
  - reflexivity.
  - reflexivity.
  - intros r [].
  - reflexivity.
Defined.

Lemma select_unused_app e c t u :
  select_unused e c (t ++ u) = (select_unused e c t ++ select_unused e c u)%list.
Proof. unfold select_unused. apply filter_app. Qed.

Lemma select_unused_issued env e :
  select_unused e (new_code env) [issued_row env e] = [issued_row env e].
Proof.
  unfold select_unused, same_pair, issued_row. simpl.
  rewrite !String.eqb_refl. reflexivity.
Qed.

(** The issuer with cooldown on a request that gets its row written. *)
Lemma fallback_issues env event s e :
  asks_code_for env event e ->
  users_with e (users s) = [] ->
  net env CodesLookup = Served ->
  (forall r, In r (email_codes s) -> ~ live_for e (Date_now env) r) ->
  net env CodesInsert = Served ->
  store (snd (GenerateCodeFallback.handler env event (fresh s))) =
    mkStore (insert_row (issued_row env e) (email_codes s)) (users s) (profiles s) /\
  (statusCode (fst (GenerateCodeFallback.handler env event (fresh s))) = 200 ->
   json_prop (body (fst (GenerateCodeFallback.handler env event (fresh s)))) "code" =
     JStr (new_code env)) /\
  fst (GenerateCodeFallback.handler env event (fresh s)) =
    match fst (GenerateCodeFallback.dispatch env e (new_code env)
                 (mkWorld (mkStore (insert_row (issued_row env e) (email_codes s))
                             (users s) (profiles s))
                    [GET_users e; GET_email_codes e None;
                     POST_email_codes (issued_row env e)])) with
    | Val d => GenerateCodeFallback.success (new_code env) (GenerateCodeFallback.note d)
    | Exn _ => unexpected
    end /\
  mailed (calls (snd (GenerateCodeFallback.handler env event (fresh s)))) =
    attempts env (configured env).
Proof.
  intros Hask Hnew Hcodes Hnone Hins.
  rewrite (fallback_after_lookups env event s e Hask Hnew Hcodes).
  destruct (existsb _ (select_unused_email e (email_codes s))) eqn:Hex.
  { apply cooldown_test in Hex. destruct Hex as (r & Hin & Hlive).
    destruct (Hnone r Hin Hlive). }
  unfold try_catch, api_codes_insert, fetch, log, get_store, put_store, bind, ret.
  rewrite Hins. simpl.
  match goal with
  | |- context [GenerateCodeFallback.dispatch ?a ?b ?c ?d] =>
      pose proof (dispatch_keeps_store a b c d) as Hst;
      pose proof (dispatch_mails a b c d) as Hmail;
      destruct (GenerateCodeFallback.dispatch a b c d) as [[d'|err] w']
  end; simpl in Hst, Hmail |- *; rewrite Hst.
  - split; [reflexivity|]. split; [|split; [reflexivity|exact Hmail]].
    intros _. destruct (GenerateCodeFallback.note d'); reflexivity.
  - split; [reflexivity|]. split; [|split; [reflexivity|exact Hmail]].
    intros H. discriminate H.
Qed.

(** X11. Issuance followed by verification with the returned code: when the
    issuer answers 200 for an email without account, its body carries the
    code of the row it wrote, and a verification of that email and code made
    within the hour, served by the store, answers 200, creates the one
    account of that email, upserts its profile and spends the code. *)
Theorem issue_then_verify :
  forall env event s e,
    asks_code_for env event e ->
    users_with e (users s) = [] ->
    net env CodesLookup = Served ->
    (forall r, In r (email_codes s) -> ~ live_for e (Date_now env) r) ->
    select_unused e (new_code env) (email_codes s) = [] ->
    net env CodesInsert = Served ->
    statusCode (fst (GenerateCodeFallback.handler env event (fresh s))) = 200 ->
    json_prop (body (fst (GenerateCodeFallback.handler env event (fresh s)))) "code" =
      JStr (new_code env) /\
    forall env2 event2,
      redeems event2 e (new_code env) -> lookup_answered env2 ->
      net env2 CodesPatch = Served -> net env2 UsersCreate = Served ->
      net env2 ProfilesUpsert = Served ->
      Date_now env2 <= Date_now env + 3600000 ->
      let issued := store (snd (GenerateCodeFallback.handler env event (fresh s))) in
      let w2 := snd (VerifyCode.handler env2 event2 (fresh issued)) in
      fst (VerifyCode.handler env2 event2 (fresh issued)) = VerifyCode.success /\
      users (store w2) = (users s ++ [mkUser (length (users s)) e])%list /\
      profiles (store w2) =
        upsert_profile
          (mkProfile (length (users s)) (plan_of event2) (Date_now env2 + trial_length))
          (profiles s) /\
      select_unused e (new_code env) (email_codes (store w2)) = [].
Proof.
  intros env event s e Hask Hnew Hcodes Hnone Hfresh Hins H200.
  destruct (fallback_issues env event s e Hask Hnew Hcodes Hnone Hins)
    as (Hst & Hcode & _ & _).
  split; [exact (Hcode H200)|].
  intros env2 event2 Hreq Hans Hpatch Hcreate Hprof Hsoon issued w2.
  subst w2 issued. rewrite Hst.
  rewrite (verify_new_account_run env2 event2 _ e (new_code env) (issued_row env e) []);
    try assumption.
  - rewrite Hprof. simpl. repeat split. apply select_unused_own_patch.
  - simpl. unfold insert_row. rewrite select_unused_app, Hfresh, select_unused_issued.
    reflexivity.
Qed.

Lemma issue_then_verify_witness :
  json_prop (body (fst (GenerateCodeFallback.handler sample_env alice_asks
                          (fresh empty_store)))) "code" = JStr "482913" /\
  fst (VerifyCode.handler soon_env alice_redeems
         (fresh (store (snd (GenerateCodeFallback.handler sample_env alice_asks
                               (fresh empty_store)))))) = VerifyCode.success.
Proof.
  destruct (issue_then_verify sample_env alice_asks empty_store "a@example.com")
    as [Hcode Hverify].
  - repeat split; try discriminate; reflexivity.
  - reflexivity.
  - reflexivity.
  - intros r [].
  - reflexivity.
  - reflexivity.
  - reflexivity.
  - split; [exact Hcode|].
    apply (Hverify soon_env alice_redeems).
    + repeat split; try discriminate; reflexivity.
    + split; reflexivity.
    + reflexivity.
    + reflexivity.
    + reflexivity.
    + vm_compute. discriminate.
Defined.

(** X12. When the fetch to a provider in turn never completes, the issuer
    answers the generic 500 although the code row has been written: the
    caller is told of a failure while a redeemable code exists. *)
Theorem lost_provider_call_leaves_code :
  forall env event s e,
    asks_code_for env event e ->
    users_with e (users s) = [] ->
    net env CodesLookup = Served ->
    (forall r, In r (email_codes s) -> ~ live_for e (Date_now env) r) ->
    net env CodesInsert = Served ->
    (exists via, In via (attempts env (configured env)) /\
                 net env (Mail via) = Rejected) ->
    fst (GenerateCodeFallback.handler env event (fresh s)) = unexpected /\
    store (snd (GenerateCodeFallback.handler env event (fresh s))) =
      mkStore (email_codes s ++ [issued_row env e]) (users s) (profiles s) /\
    In (issued_row env e)
       (select_unused e (new_code env)
          (email_codes (store (snd (GenerateCodeFallback.handler env event (fresh s)))))).
Proof.
  intros env event s e Hask Hnew Hcodes Hnone Hins Hrej.
  destruct (fallback_issues env event s e Hask Hnew Hcodes Hnone Hins)
    as (Hst & _ & Hres & _).
  destruct (dispatch_rejected env e (new_code env)
              (mkWorld (mkStore (insert_row (issued_row env e) (email_codes s))
                          (users s) (profiles s))
                 [GET_users e; GET_email_codes e None;
                  POST_email_codes (issued_row env e)]) Hrej) as [err Herr].
  rewrite Herr in Hres. rewrite Hst. simpl.
  split; [exact Hres|]. split; [reflexivity|].
  unfold insert_row. rewrite select_unused_app, select_unused_issued.
  apply in_or_app. right. left. reflexivity.
Qed.

Lemma lost_provider_call_leaves_code_witness :
  fst (GenerateCodeFallback.handler resend_unreachable_env alice_asks
         (fresh empty_store)) = unexpected /\
  store (snd (GenerateCodeFallback.handler resend_unreachable_env alice_asks
                (fresh empty_store))) =
    mkStore [alice_row] [] [].
Proof.
  destruct (lost_provider_call_leaves_code resend_unreachable_env alice_asks
              empty_store "a@example.com") as (H1 & H2 & _).
  - repeat split; try discriminate; reflexivity.
  - reflexivity.
  - reflexivity.
  - intros r [].
  - reflexivity.
  - exists Resend. split; [left; reflexivity|reflexivity].
  - split; [exact H1|exact H2].
Defined.

Lemma retained_note_none env :
  (forall via, In via (attempts env (configured env)) -> net env (Mail via) <> Rejected) ->
  (retained_note env = None <->
   exists via ps, configured env = via :: ps /\ net env (Mail via) = Served).
Proof.
  intros Hrej. unfold retained_note.
  destruct (is_set (FROM_EMAIL env)) eqn:Hfrom.
  - destruct (configured env) as [|via ps] eqn:Hcfg; simpl.
    + split; [discriminate|]. intros (via & ps & H & _). discriminate H.
    + simpl in Hrej. unfold failure_reason, answered_ok.
      destruct (net env (Mail via)) as [|t|] eqn:Hnet.
      * simpl. unfold failure_reason, answered_ok. rewrite Hnet. simpl.
        split; [|reflexivity]. intros _. exists via, ps. split; [reflexivity|exact Hnet].
      * simpl. unfold failure_reason. rewrite Hnet.
        split.
        -- destruct t; destruct (reasons env (attempts env ps)); discriminate.
        -- intros (via' & ps' & H & Hs). injection H as <- <-. congruence.
      * exfalso. apply (Hrej via); [left; reflexivity|exact Hnet].
  - split; [discriminate|].
    intros (via & ps & H & _). unfold configured in H. rewrite Hfrom in H. discriminate H.
Qed.

(** X13. A 200 answer of the issuer carries no note exactly when the first
    configured provider accepted the message; after the failure of an
    earlier provider the note stays in the body even if a later provider
    delivers. *)
Theorem note_absent_iff_first_provider_accepts :
  forall env event s e,
    asks_code_for env event e ->
    users_with e (users s) = [] ->
    net env CodesLookup = Served ->
    (forall r, In r (email_codes s) -> ~ live_for e (Date_now env) r) ->
    net env CodesInsert = Served ->
    (forall via, In via (attempts env (configured env)) ->
                 net env (Mail via) <> Rejected) ->
    statusCode (fst (GenerateCodeFallback.handler env event (fresh s))) = 200 /\
    (json_prop (body (fst (GenerateCodeFallback.handler env event (fresh s)))) "note" =
       JUndefined <->
     exists via ps, configured env = via :: ps /\ net env (Mail via) = Served).
Proof.
  intros env event s e Hask Hnew Hcodes Hnone Hins Hrej.
  destruct (fallback_issues env event s e Hask Hnew Hcodes Hnone Hins)
    as (_ & _ & Hres & _).
  rewrite (dispatch_value env e (new_code env) _ Hrej) in Hres.
  rewrite Hres. simpl GenerateCodeFallback.note.
  split; [reflexivity|].
  rewrite <- (retained_note_none env Hrej).
  destruct (retained_note env); simpl; split; congruence.
Qed.

Lemma note_absent_iff_first_provider_accepts_witness :
  json_prop (body (fst (GenerateCodeFallback.handler resend_down_env alice_asks
                          (fresh empty_store)))) "note" = JUndefined <->
  exists via ps, configured resend_down_env = via :: ps /\
                 net resend_down_env (Mail via) = Served.
Proof.
  refine (proj2 (note_absent_iff_first_provider_accepts resend_down_env alice_asks
                   empty_store "a@example.com" _ _ _ _ _ _)).
  - repeat split; try discriminate; reflexivity.
  - reflexivity.
  - reflexivity.
  - intros r [].
  - reflexivity.
  - intros via [<-|[<-|[]]]; discriminate.
Defined.

(** X14. Both revisions of the issuer turn a request away before any
    outbound call: a method other than POST gets 405; a body that does not
    parse or an email that is not a string gets the generic 500; a missing
    or blank email gets 400; a missing Supabase URL or key gets 500.  In each
    case the tables and the call log are left as they were. *)
Theorem issuer_turns_away_before_any_call :
  forall env event w,
    (httpMethod event <> "POST" ->
     GenerateCodeResend.handler env event w = (method_not_allowed, w) /\
     GenerateCodeFallback.handler env event w = (method_not_allowed, w)) /\
    (httpMethod event = "POST" -> requested_email event = None ->
     GenerateCodeResend.handler env event w = (unexpected, w) /\
     GenerateCodeFallback.handler env event w = (unexpected, w)) /\
    (httpMethod event = "POST" -> requested_email event = Some "" ->
     GenerateCodeResend.handler env event w = (email_required, w) /\
     GenerateCodeFallback.handler env event w = (email_required, w)) /\
    (forall e,
        httpMethod event = "POST" -> requested_email event = Some e -> e <> "" ->
        supabase_configured env = false ->
        GenerateCodeResend.handler env event w = (supabase_missing, w) /\
        GenerateCodeFallback.handler env event w = (supabase_missing, w)).
Proof.
  intros env event w.
  unfold GenerateCodeResend.handler, GenerateCodeFallback.handler.
  unfold requested_email, str_prop, normalize.
  split; [|split; [|split]].
  - intros Hm.
    destruct (String.eqb_spec (httpMethod event) "POST"); [contradiction|].
    split; reflexivity.
  - intros Hm He. rewrite (post_method _ Hm).
    unfold GenerateCodeResend.try_block, GenerateCodeFallback.try_block,
      try_catch, JSON_parse, as_string, bind, ret, throw.
    destruct (parsed event) as [o|]; [|split; reflexivity].
    destruct (js_or (prop o "email") (JStr "")); try discriminate He;
      split; reflexivity.
  - intros Hm He. rewrite (post_method _ Hm).
    unfold GenerateCodeResend.try_block, GenerateCodeFallback.try_block,
      try_catch, JSON_parse, as_string, bind, ret, throw.
    destruct (parsed event) as [o|]; [|discriminate He].
    destruct (js_or (prop o "email") (JStr "")); try discriminate He.
    injection He as He. rewrite He. split; reflexivity.
  - intros e Hm He Hne Hcfg. rewrite (post_method _ Hm).
    unfold GenerateCodeResend.try_block, GenerateCodeFallback.try_block,
      try_catch, JSON_parse, as_string, bind, ret, throw.
    destruct (parsed event) as [o|]; [|discriminate He].
    destruct (js_or (prop o "email") (JStr "")); try discriminate He.
    injection He as He. rewrite He, (nonempty_true _ Hne), Hcfg. split; reflexivity.
Qed.

Lemma issuer_turns_away_before_any_call_witness :
  GenerateCodeResend.handler sample_env (post [("email", JNum 42)]) (fresh empty_store) =
    (unexpected, fresh empty_store) /\
  GenerateCodeFallback.handler sample_env (post [("email", JNum 42)]) (fresh empty_store) =
    (unexpected, fresh empty_store).
Proof.
  apply (proj1 (proj2 (issuer_turns_away_before_any_call sample_env
                         (post [("email", JNum 42)]) (fresh empty_store))));
    reflexivity.
Defined.

(** X15. Whatever the request and whatever the store and the providers
    answer, the issuer with cooldown never touches the accounts or the
    profiles and never changes or removes an existing code row; it appends
    at most one row, and that row is for the normalised email of the
    request, carries the new code and an expiry one hour after the current
    time, and is not used. *)
Theorem issuer_appends_at_most_one_row :
  forall env event s,
    let s' := store (snd (GenerateCodeFallback.handler env event (fresh s))) in
    users s' = users s /\ profiles s' = profiles s /\
    (email_codes s' = email_codes s \/
     exists e, requested_email event = Some e /\
               email_codes s' =
                 (email_codes s ++
                  [mkCodeRow e (new_code env) (Date_now env + 3600000) false])%list).
Proof.
  intros env event s. cbv zeta.
  unfold requested_email, str_prop, normalize. run_fallback.
  repeat (break_match; simpl).
  all: split; [reflexivity|]; split; [reflexivity|].
  all: first [left; reflexivity
             | right; eexists; split; [reflexivity|reflexivity]].
Qed.

(** ** More on the feedback relay *)

Lemma slice0_length n s : Z.of_nat (String.length (slice0 n s)) <= Z.max 0 n.
Proof.
  revert n. induction s as [|c s IH]; intros n; simpl; [lia|].
  destruct (Z.ltb_spec 0 n); simpl; [|lia].
  specialize (IH (n - 1)). lia.
Qed.

Lemma slice0_prefix n s : String.prefix (slice0 n s) s = true.
Proof.
  revert n. induction s as [|c s IH]; intros n; simpl; [reflexivity|].
  destruct (0 <? n); simpl; [|reflexivity].
  destruct (ascii_dec c c); [apply IH|contradiction].
Qed.

Lemma slice0_short n s : Z.of_nat (String.length s) <= n -> slice0 n s = s.
Proof.
  revert n. induction s as [|c s IH]; intros n Hn; simpl; [reflexivity|].
  simpl in Hn. destruct (Z.ltb_spec 0 n); [|lia].
  rewrite IH; [reflexivity|lia].
Qed.

(** X16. Whatever the request and whatever the providers answer, the
    feedback relay leaves the tables alone and makes at most one outbound
    call, which is a mail with the fixed subject "Feedback" to the first
    configured provider. *)
Theorem feedback_makes_at_most_one_call :
  forall env event s,
    let w := snd (Feedback.handler env event (fresh s)) in
    store w = s /\
    (calls w = [] \/
     exists via m rest,
       calls w = [POST_mail via m] /\ msg_subject m = "Feedback" /\
       feedback_configured env = via :: rest).
Proof.
  intros env event s. cbv zeta.
  unfold feedback_configured, when_set. run_feedback.
  repeat (break_match; simpl).
  all: split; [reflexivity|].
  all: first [left; reflexivity
             | right; eexists; eexists; eexists;
               split; [reflexivity|split; reflexivity]].
Qed.

(** What the relay puts into the mail it sends. *)
Lemma feedback_mail_content :
  forall env event s via m,
    In (POST_mail via m) (calls (snd (Feedback.handler env event (fresh s)))) ->
    exists o,
      parsed event = Some o /\
      msg_content m = slice0 20000 (feedback_text o) /\
      Z.of_nat (String.length (msg_content m)) <= 20000 /\
      String.prefix (msg_content m) (feedback_text o) = true /\
      (Z.of_nat (String.length (feedback_text o)) <= 20000 ->
       msg_content m = feedback_text o) /\
      msg_content m <> "" /\
      msg_to m = prop o "to" /\ truthy (msg_to m) = true /\
      msg_reply_to m = js_or (prop o "from") JUndefined.
Proof.
  intros env event s via m.
  assert (Hall : forall o, parsed event = Some o ->
             msg_content m = slice0 20000 (feedback_text o) ->
             nonempty (slice0 20000 (feedback_text o)) = true ->
             msg_to m = prop o "to" -> truthy (prop o "to") = true ->
             msg_reply_to m = js_or (prop o "from") JUndefined ->
             exists o,
               parsed event = Some o /\
               msg_content m = slice0 20000 (feedback_text o) /\
               Z.of_nat (String.length (msg_content m)) <= 20000 /\
               String.prefix (msg_content m) (feedback_text o) = true /\
               (Z.of_nat (String.length (feedback_text o)) <= 20000 ->
                msg_content m = feedback_text o) /\
               msg_content m <> "" /\
               msg_to m = prop o "to" /\ truthy (msg_to m) = true /\
               msg_reply_to m = js_or (prop o "from") JUndefined).
  { intros o Ho Hc Hne Hto Htruthy Hreply. exists o.
    split; [exact Ho|]. split; [exact Hc|]. rewrite Hc, Hto.
    split; [pose proof (slice0_length 20000 (feedback_text o)); lia|].
    split; [apply slice0_prefix|].
    split; [intros Hlen; apply slice0_short; lia|].
    split; [|split; [reflexivity|split; [exact Htruthy|exact Hreply]]].
    intros Hempty. unfold nonempty in Hne. rewrite Hempty in Hne. discriminate Hne. }
  revert Hall. unfold feedback_text, Feedback.or_undefined. run_feedback.
  intros Hall.
  repeat (break_match; simpl); intros Hin; try contradiction.
  all: destruct Hin as [Hin|[]]; injection Hin as <- <-.
  all: match goal with
       | H : _ || _ = false |- _ =>
           apply orb_false_iff in H; destruct H as [Ht Hn];
           apply negb_false_iff in Ht; apply negb_false_iff in Hn
       end.
  all: eapply Hall; simpl; try reflexivity; assumption.
Qed.

Lemma feedback_text_of_string o t :
  prop o "body" = JStr t -> feedback_text o = t.
Proof.
  intros Hb. unfold feedback_text, js_or. rewrite Hb. simpl.
  destruct t; reflexivity.
Qed.

(** X17. For a request whose [body] is a string of ASCII characters, the
    text the relay mails is that string cut to its first 20000 characters:
    it is never longer, it is the whole string when that has at most 20000
    characters, it is never empty; the recipient is the request's [to] as
    given and the reply-to its [from]. *)
Theorem feedback_text_is_cut_to_20000 :
  forall env event s via m o t,
    In (POST_mail via m) (calls (snd (Feedback.handler env event (fresh s)))) ->
    parsed event = Some o ->
    prop o "body" = JStr t -> ascii_only t = true ->
    msg_content m = slice0 20000 t /\
    Z.of_nat (String.length (msg_content m)) <= 20000 /\
    String.prefix (msg_content m) t = true /\
    (Z.of_nat (String.length t) <= 20000 -> msg_content m = t) /\
    msg_content m <> "" /\
    msg_to m = prop o "to" /\ truthy (msg_to m) = true /\
    msg_reply_to m = js_or (prop o "from") JUndefined.
Proof.
  intros env event s via m o t Hin Ho Hbody _.
  destruct (feedback_mail_content env event s via m Hin)
    as (o' & Ho' & Hc & Hlen & Hpre & Hshort & Hne & Hto & Htruthy & Hreply).
  rewrite Ho in Ho'. injection Ho' as <-.
  rewrite (feedback_text_of_string o t Hbody) in Hc, Hpre, Hshort.
  repeat split; assumption.
Qed.

Lemma feedback_text_is_cut_to_20000_witness :
  msg_content (mkMessage (JStr "no-reply@lhyst.example") JUndefined
                 (JStr "ops@lhyst.example") "Feedback" "The log page is slow"
                 (JStr "cook@lhyst.example")) =
    slice0 20000 "The log page is slow" /\
  Z.of_nat (String.length "The log page is slow") <= 20000.
Proof.
  destruct (feedback_text_is_cut_to_20000 sample_env plain_feedback empty_store Resend
              (mkMessage (JStr "no-reply@lhyst.example") JUndefined
                 (JStr "ops@lhyst.example") "Feedback" "The log page is slow"
                 (JStr "cook@lhyst.example"))
              [("to", JStr "ops@lhyst.example"); ("from", JStr "cook@lhyst.example");
               ("body", JStr "The log page is slow")]
              "The log page is slow")
    as (Hc & Hlen & _).
  - left. reflexivity.
  - reflexivity.
  - reflexivity.
  - reflexivity.
  - split; [exact Hc|exact Hlen].
Defined.

(** X18. The relay turns a request away without contacting any provider: a
    method other than POST gets 405, a body that does not parse gets 500,
    and a missing [to] or a missing, empty or otherwise falsy [body] gets 400
    "Missing 'to' or 'body'.". *)
Theorem feedback_turns_away_before_any_call :
  forall env event w,
    (httpMethod event <> "POST" ->
     Feedback.handler env event w = (method_not_allowed, w)) /\
    (httpMethod event = "POST" -> parsed event = None ->
     statusCode (fst (Feedback.handler env event w)) = 500 /\
     snd (Feedback.handler env event w) = w) /\
    (forall o,
        httpMethod event = "POST" -> parsed event = Some o ->
        truthy (prop o "to") = false \/ truthy (prop o "body") = false ->
        Feedback.handler env event w = (missing_to_or_body, w)).
Proof.
  intros env event w. unfold Feedback.handler, Feedback.try_block, try_catch.
  split; [|split].
  - intros Hm.
    destruct (String.eqb_spec (httpMethod event) "POST"); [contradiction|reflexivity].
  - intros Hm Ho. rewrite (post_method _ Hm).
    unfold JSON_parse, bind, throw. rewrite Ho. split; reflexivity.
  - intros o Hm Ho Hmiss. rewrite (post_method _ Hm).
    unfold JSON_parse, bind, ret. rewrite Ho.
    destruct Hmiss as [Hto|Hbody].
    + rewrite Hto. reflexivity.
    + unfold js_or at 1. rewrite Hbody. simpl. rewrite orb_true_r. reflexivity.
Qed.

Lemma feedback_turns_away_before_any_call_witness :
  Feedback.handler sample_env
    (post [("to", JStr "ops@lhyst.example"); ("body", JNum 0)]) (fresh empty_store) =
  (missing_to_or_body, fresh empty_store).
Proof.
  refine (proj2 (proj2 (feedback_turns_away_before_any_call sample_env _ _)) _ _ _ _).
  - reflexivity.
  - reflexivity.
  - right. reflexivity.
Defined.

(** ** The checkout functions *)

(** X19. The plan-and-frequency revision of the checkout function charges,
    in cents, 999 for Basic monthly, 1499 for Pro monthly, 10789 for Basic
    yearly and 16184 for Pro yearly; any [plan] other than the string "pro"
    is priced as Basic and any [frequency] other than the string "yearly" as
    monthly; the interval follows the frequency, the trial is 14 days, and
    exactly one form is posted to Stripe.  A year costs less than twelve
    months of the same plan. *)
Theorem plans_price_table :
  forall reply event o,
    orders event o ->
    let pro := is_str (prop o "plan") "pro" in
    let yearly := is_str (prop o "frequency") "yearly" in
    exists f,
      snd (CreateCheckoutSessionPlans.handler reply event) = [f] /\
      form_get f unit_amount_key =
        Some (match pro, yearly with
              | false, false => "999"
              | true, false => "1499"
              | false, true => "10789"
              | true, true => "16184"
              end) /\
      form_get f interval_key = Some (if yearly then "year" else "month") /\
      form_get f trial_key = Some "14" /\
      form_get f "mode" = Some "subscription" /\
      10789 < 12 * 999 /\ 16184 < 12 * 1499.
Proof.
  intros reply event o [Hm Ho] pro yearly. subst pro yearly.
  unfold CreateCheckoutSessionPlans.handler. rewrite (post_method _ Hm), Ho.
  eexists. split; [reflexivity|].
  unfold CreateCheckoutSessionPlans.form.
  destruct (is_str (prop o "plan") "pro"), (is_str (prop o "frequency") "yearly");
    repeat split; reflexivity.
Qed.

Lemma plans_price_table_witness :
  exists f,
    snd (CreateCheckoutSessionPlans.handler StripeLost checkout_event) = [f] /\
    form_get f unit_amount_key = Some "1499".
Proof.
  destruct (plans_price_table StripeLost checkout_event
              [("plan", JStr "pro"); ("frequency", JStr "weekly")])
    as (f & Hf & Ha & _).
  - split; reflexivity.
  - exists f. split; [exact Hf|exact Ha].
Defined.

(** X20. The monthly-or-yearly checkout function charges 999 cents a month
    unless [plan] is the string "yearly", in which case it charges 10788
    cents a year (twelve times 8.99); the trial is 14 days and exactly one
    form is posted to Stripe. *)
Theorem monthly_or_yearly_price :
  forall reply event o,
    orders event o ->
    exists f,
      snd (CreateCheckoutSession.handler reply event) = [f] /\
      (form_get f unit_amount_key, form_get f interval_key) =
        (if is_str (prop o "plan") "yearly"
         then (Some "10788", Some "year") else (Some "999", Some "month")) /\
      form_get f trial_key = Some "14" /\
      10788 = 12 * 899.
Proof.
  intros reply event o [Hm Ho].
  unfold CreateCheckoutSession.handler. rewrite (post_method _ Hm), Ho.
  eexists. split; [reflexivity|].
  unfold CreateCheckoutSession.form.
  destruct (is_str (prop o "plan") "yearly"); repeat split; reflexivity.
Qed.

Lemma monthly_or_yearly_price_witness :
  exists f,
    snd (CreateCheckoutSession.handler StripeLost (post [("plan", JStr "yearly")])) = [f] /\
    (form_get f unit_amount_key, form_get f interval_key) = (Some "10788", Some "year").
Proof.
  destruct (monthly_or_yearly_price StripeLost (post [("plan", JStr "yearly")])
              [("plan", JStr "yearly")]) as (f & Hf & Ha & _).
  - split; reflexivity.
  - exists f. split; [exact Hf|exact Ha].
Defined.

Lemma prop_of_defined o k : Forall (fun kv => defined kv = true) o ->
  prop (filter defined o) k = prop o k.
Proof.
  intros H. induction H as [|[k' v] o Hd _ IH]; simpl; [reflexivity|].
  rewrite Hd. simpl. rewrite IH. reflexivity.
Qed.

Lemma session_body_keys data k :
  k <> "url" -> k <> "id" ->
  json_prop (JSON_stringify [("url", prop data "url"); ("id", prop data "id")]) k =
  JUndefined.
Proof.
  intros Hu Hi. unfold JSON_stringify, json_prop.
  assert (forall o, (forall k' v, In (k', v) o -> k' = "url" \/ k' = "id") ->
                    prop o k = JUndefined) as Hkeys.
  { induction o as [|[k' v] o IH]; intros Hall; simpl; [reflexivity|].
    destruct (String.eqb_spec k' k) as [->|_].
    - destruct (Hall k v (or_introl eq_refl)); contradiction.
    - apply IH. intros k'' v' Hin. apply (Hall k'' v'). right. exact Hin. }
  apply Hkeys. intros k' v Hin. apply filter_In in Hin. destruct Hin as [Hin _].
  destruct Hin as [Hin|[Hin|[]]]; injection Hin as <- _; auto.
Qed.

Lemma relay_session_answer status data :
  Forall (fun kv => defined kv = true) data ->
  (http_ok status = false ->
   statusCode (relay_session (StripeAnswer status data)) = status /\
   body (relay_session (StripeAnswer status data)) = Json data) /\
  (http_ok status = true ->
   statusCode (relay_session (StripeAnswer status data)) = 200 /\
   json_prop (body (relay_session (StripeAnswer status data))) "url" = prop data "url" /\
   json_prop (body (relay_session (StripeAnswer status data))) "id" = prop data "id" /\
   forall k, k <> "url" -> k <> "id" ->
             json_prop (body (relay_session (StripeAnswer status data))) k = JUndefined).
Proof.
  intros Hdef. unfold relay_session. split; intros ->; simpl.
  - split; [reflexivity|]. unfold JSON_stringify. f_equal.
    induction Hdef as [|kv o Hd _ IH]; simpl; [reflexivity|].
    rewrite Hd, IH. reflexivity.
  - split; [reflexivity|].
    split; [|split; [|apply session_body_keys]].
    + unfold JSON_stringify, json_prop.
      destruct (prop data "url"), (prop data "id"); reflexivity.
    + unfold JSON_stringify, json_prop.
      destruct (prop data "url"), (prop data "id"); reflexivity.
Qed.

(** X21. In the three checkout functions, an error answer of Stripe is
    passed through with its status and its body; a success answer becomes
    200 with Stripe's [url] and [id] and no other property of the session
    object. *)
Theorem checkout_relays_stripe :
  forall prices event o status data r,
    orders event o ->
    Forall (fun kv => defined kv = true) data ->
    r = fst (CreateCheckoutSession.handler (StripeAnswer status data) event) \/
    r = fst (CreateCheckoutSessionPlans.handler (StripeAnswer status data) event) \/
    (r = fst (CreateCheckoutSessionPriceIds.handler prices (StripeAnswer status data) event) /\
     r <> CreateCheckoutSessionPriceIds.price_missing) ->
    (http_ok status = false -> statusCode r = status /\ body r = Json data) /\
    (http_ok status = true ->
     statusCode r = 200 /\
     json_prop (body r) "url" = prop data "url" /\
     json_prop (body r) "id" = prop data "id" /\
     forall k, k <> "url" -> k <> "id" -> json_prop (body r) k = JUndefined).
Proof.
  intros prices event o status data r [Hm Ho] Hdef Hr.
  assert (r = relay_session (StripeAnswer status data)) as ->.
  { unfold CreateCheckoutSession.handler, CreateCheckoutSessionPlans.handler,
      CreateCheckoutSessionPriceIds.handler in Hr.
    rewrite (post_method _ Hm), Ho in Hr.
    destruct Hr as [-> | [-> | [Hr Hne]]]; try reflexivity.
    cbv zeta in Hr.
    destruct (CreateCheckoutSessionPriceIds.priceId _ _ _) as [p|];
      [destruct (nonempty p)|]; cbn [fst] in Hr; [exact Hr|contradiction..]. }
  apply relay_session_answer. exact Hdef.
Qed.

Lemma checkout_relays_stripe_witness :
  statusCode (fst (CreateCheckoutSessionPlans.handler
                     (StripeAnswer 402 [("error", JStr "card_declined")])
                     checkout_event)) = 402 /\
  body (fst (CreateCheckoutSessionPlans.handler
               (StripeAnswer 402 [("error", JStr "card_declined")])
               checkout_event)) = Json [("error", JStr "card_declined")].
Proof.
  refine (proj1 (checkout_relays_stripe sample_prices checkout_event _ 402
                   [("error", JStr "card_declined")] _ _ _ _) _).
  - split; reflexivity.
  - repeat constructor.
  - right. left. reflexivity.
  - reflexivity.
Defined.

(** X22. The three checkout functions turn a request away without calling
    Stripe: a method other than POST gets 405, a body that does not parse
    gets 400 "Invalid JSON", and in the price-id revision a price id that is
    not configured gets 500. *)
Theorem checkout_turns_away_before_stripe :
  forall prices reply event,
    (httpMethod event <> "POST" ->
     CreateCheckoutSession.handler reply event = (checkout_method_not_allowed, []) /\
     CreateCheckoutSessionPlans.handler reply event = (checkout_method_not_allowed, []) /\
     CreateCheckoutSessionPriceIds.handler prices reply event =
       (checkout_method_not_allowed, [])) /\
    (httpMethod event = "POST" -> parsed event = None ->
     CreateCheckoutSession.handler reply event = (invalid_json, []) /\
     CreateCheckoutSessionPlans.handler reply event = (invalid_json, []) /\
     CreateCheckoutSessionPriceIds.handler prices reply event = (invalid_json, [])) /\
    (forall o,
        orders event o ->
        is_set (CreateCheckoutSessionPriceIds.priceId prices
                  (CreateCheckoutSessionPriceIds.or_default (prop o "plan") "basic")
                  (CreateCheckoutSessionPriceIds.or_default (prop o "frequency") "monthly"))
          = false ->
        CreateCheckoutSessionPriceIds.handler prices reply event =
          (CreateCheckoutSessionPriceIds.price_missing, [])).
Proof.
  intros prices reply event.
  unfold CreateCheckoutSession.handler, CreateCheckoutSessionPlans.handler,
    CreateCheckoutSessionPriceIds.handler.
  split; [|split].
  - intros Hm.
    destruct (String.eqb_spec (httpMethod event) "POST"); [contradiction|].
    repeat split.
  - intros Hm Ho. rewrite (post_method _ Hm), Ho. repeat split.
  - intros o [Hm Ho] Hmiss. rewrite (post_method _ Hm), Ho.
    unfold is_set in Hmiss.
    destruct (CreateCheckoutSessionPriceIds.priceId _ _ _) as [p|]; [|reflexivity].
    unfold nonempty. apply negb_false_iff in Hmiss. rewrite Hmiss. reflexivity.
Qed.

Lemma checkout_turns_away_before_stripe_witness :
  CreateCheckoutSessionPlans.handler StripeLost (mkEvent "POST" None) = (invalid_json, []).
Proof.
  refine (proj1 (proj2 (proj1 (proj2 (checkout_turns_away_before_stripe
                                        sample_prices StripeLost (mkEvent "POST" None)))
                          _ _))); reflexivity.
Defined.

(** X23. In the price-id revision the Basic monthly price is the fallback of
    the price selection: a request for plan "pro" whose [frequency] is given
    but is neither "yearly" nor "monthly" is posted to Stripe with the Basic
    monthly price id, while the success URL it sends still ends in
    [plan=pro]. *)
Theorem price_id_falls_back_to_basic_monthly :
  forall prices reply event o price,
    orders event o ->
    prop o "plan" = JStr "pro" ->
    is_str (prop o "frequency") "yearly" = false ->
    is_str (prop o "frequency") "monthly" = false ->
    prop o "frequency" <> JUndefined ->
    CreateCheckoutSessionPriceIds.PRICE_BASIC_MONTHLY prices = Some price ->
    price <> "" ->
    exists f,
      snd (CreateCheckoutSessionPriceIds.handler prices reply event) = [f] /\
      form_get f price_key = Some price /\
      form_get f "success_url" = Some (success_url ++ "&plan=pro").
Proof.
  intros prices reply event o price [Hm Ho] Hplan Hy Hmo Hdef Hprice Hne.
  unfold CreateCheckoutSessionPriceIds.handler. rewrite (post_method _ Hm), Ho.
  unfold CreateCheckoutSessionPriceIds.priceId, CreateCheckoutSessionPriceIds.or_default.
  rewrite Hplan.
  destruct (prop o "frequency") eqn:Hf; try contradiction; simpl in Hy, Hmo |- *;
    rewrite ?Hy, ?Hmo; simpl; rewrite Hprice, (nonempty_true _ Hne);
    eexists; repeat split.
Qed.

Lemma price_id_falls_back_to_basic_monthly_witness :
  exists f,
    snd (CreateCheckoutSessionPriceIds.handler sample_prices StripeLost checkout_event) = [f] /\
    form_get f price_key = Some "price_bm" /\
    form_get f "success_url" = Some (success_url ++ "&plan=pro").
Proof.
  apply (price_id_falls_back_to_basic_monthly sample_prices StripeLost checkout_event
           [("plan", JStr "pro"); ("frequency", JStr "weekly")] "price_bm").
  - split; reflexivity.
  - reflexivity.
  - reflexivity.
  - reflexivity.
  - discriminate.
  - reflexivity.
  - discriminate.
Defined.
